(** * SRP-6a login server: a shallow embedding of [server.js]

    The development follows the source file top-down: the public helpers
    ([hash], [generateSalt], [bigIntExponentiation]), the domain parameters
    ([N], [g], [k]) and the per-connection WebSocket handler together with
    the callback it hands to the user store.

    JavaScript [BigInt] values are unbounded integers and are modelled by
    [Z]; [%] on BigInts truncates towards zero ([Z.rem]), [>>] is the
    arithmetic shift ([Z.shiftr]) and [^] is [Z.lxor].  Exceptions are
    explicit: a pure helper returns a [completion], the handler runs in a
    small state/trace/exception monad over the closure variables of one
    connection.  A string is the sequence of bytes of its UTF-8 encoding. *)

From Stdlib Require Import ZArith Lia String Ascii List Bool.
From Stdlib Require DecimalString HexadecimalString DecimalPos HexadecimalPos.
From Equations Require Import Equations.
From stdpp Require Import base gmap strings.
Import ListNotations.

#[local] Open Scope string_scope.
#[local] Open Scope Z_scope.

(** ** Exceptions *)

Inductive exn : Type :=
| TypeError    (* property access or destructuring of [undefined] *)
| SyntaxError  (* [BigInt(...)] of a string that is not an integer literal *)
| RangeError   (* BigInt division by zero *)
| QuotaExceededError.  (* [crypto.getRandomValues] asked for more than 65536 bytes *)

Inductive completion (A : Type) : Type :=
| Normal (a : A)
| Throw (e : exn).
Arguments Normal {A} a.
Arguments Throw {A} e.

(** ** JavaScript values that reach the helpers

    Payload fields are JSON strings or absent ([undefined]); the closure
    variables hold strings or BigInts. *)

Inductive value : Type :=
| VUndefined
| VString (s : string)
| VBigInt (z : Z).

(** [BigInt.prototype.toString()] and [toString(16)]. *)
Definition BigInt_toString (z : Z) : string :=
  DecimalString.NilZero.string_of_int (Z.to_int z).

Definition BigInt_toString16 (z : Z) : string :=
  HexadecimalString.NilZero.string_of_int (Z.to_hex_int z).

(** How [Array.prototype.join] renders one element. *)
Definition join_item (v : value) : string :=
  match v with
  | VUndefined => EmptyString
  | VString s => s
  | VBigInt z => BigInt_toString z
  end.

(** [args.join(separator)] *)
Definition join (separator : string) (args : list value) : string :=
  String.concat separator (map join_item args).

(** How a template literal [`${v}`] renders a value. *)
Definition template (v : value) : string :=
  match v with
  | VUndefined => "undefined"
  | VString s => s
  | VBigInt z => BigInt_toString z
  end.

(** ** Hexadecimal text *)

Definition hex_digit_value (c : ascii) : option Z :=
  let n := Z.of_N (N_of_ascii c) in
  if (48 <=? n) && (n <=? 57) then Some (n - 48)
  else if (97 <=? n) && (n <=? 102) then Some (n - 87)
  else if (65 <=? n) && (n <=? 70) then Some (n - 55)
  else None.

Fixpoint hex_digits_value (acc : Z) (s : string) : option Z :=
  match s with
  | EmptyString => Some acc
  | String c rest =>
      match hex_digit_value c with
      | Some d => hex_digits_value (16 * acc + d) rest
      | None => None
      end
  end.

(** White space and line terminators of the string-to-number grammar.
    The ASCII ones are TAB, LF, VT, FF, CR and SP. *)
Definition is_white_space (c : ascii) : bool :=
  let n := Z.of_N (N_of_ascii c) in
  ((9 <=? n) && (n <=? 13)) || (n =? 32).

(** The others, by the bytes of their UTF-8 encoding: U+00A0 in two
    bytes; U+1680, U+2000 to U+200A, U+2028, U+2029, U+202F, U+205F, U+3000
    and U+FEFF in three. *)
Definition white_space_2 (b1 b2 : Z) : bool :=
  (b1 =? 0xC2) && (b2 =? 0xA0).

Definition white_space_3 (b1 b2 b3 : Z) : bool :=
  ((b1 =? 0xE1) && (b2 =? 0x9A) && (b3 =? 0x80))
  || ((b1 =? 0xE2) && (b2 =? 0x80) && ((0x80 <=? b3) && (b3 <=? 0x8A)))
  || ((b1 =? 0xE2) && (b2 =? 0x80) && ((b3 =? 0xA8) || (b3 =? 0xA9) || (b3 =? 0xAF)))
  || ((b1 =? 0xE2) && (b2 =? 0x81) && (b3 =? 0x9F))
  || ((b1 =? 0xE3) && (b2 =? 0x80) && (b3 =? 0x80))
  || ((b1 =? 0xEF) && (b2 =? 0xBB) && (b3 =? 0xBF)).

(** Whether a string consists of white space only. *)
Fixpoint all_white_space (s : string) : bool :=
  match s with
  | EmptyString => true
  | String c1 rest =>
      if is_white_space c1 then all_white_space rest
      else
        match rest with
        | EmptyString => false
        | String c2 rest2 =>
            let b1 := Z.of_N (N_of_ascii c1) in
            let b2 := Z.of_N (N_of_ascii c2) in
            if white_space_2 b1 b2 then all_white_space rest2
            else
              match rest2 with
              | EmptyString => false
              | String c3 rest3 =>
                  white_space_3 b1 b2 (Z.of_N (N_of_ascii c3))
                  && all_white_space rest3
              end
        end
  end.

(** The string without the white space at its end. *)
Fixpoint trim_end (s : string) : string :=
  match s with
  | EmptyString => EmptyString
  | String c rest =>
      if all_white_space s then EmptyString else String c (trim_end rest)
  end.

(** [BigInt(`0x${digits}`)]: the literal starts with [0x], so only white
    space at the end is skipped; what remains must be one or more
    hexadecimal digits, otherwise a [SyntaxError] is thrown. *)
Definition BigInt_0x (digits : string) : completion Z :=
  match trim_end digits with
  | EmptyString => Throw SyntaxError
  | text =>
      match hex_digits_value 0 text with
      | Some z => Normal z
      | None => Throw SyntaxError
      end
  end.

(** [byte.toString(16).padStart(2, '0')]; it is also how [digest("hex")]
    prints one byte. *)
Definition Number_toString16 (n : N) : string :=
  HexadecimalString.NilZero.string_of_uint (N.to_hex_uint n).

Definition padStart2 (s : string) : string :=
  match s with
  | String c EmptyString => String "0" (String c EmptyString)
  | EmptyString => "00"
  | _ => s
  end.

Definition byte_hex (b : Byte.byte) : string :=
  padStart2 (Number_toString16 (Byte.to_N b)).

Definition bytes_hex (bs : list Byte.byte) : string :=
  String.concat EmptyString (map byte_hex bs).

(** The raw bytes read as a big-endian unsigned integer. *)
Definition be_uint (bs : list Byte.byte) : Z :=
  fold_left (fun acc b => 256 * acc + Z.of_N (Byte.to_N b)) bs 0.

(** ** [bigIntExponentiation] *)

(** Number of binary digits of a positive exponent: the loop runs once
    per digit. *)
Definition bit_length (power : Z) : nat :=
  match power with
  | Zpos p => Pos.size_nat p
  | _ => 0%nat
  end.

(** The [while (power > 0n)] loop, on the three variables it updates. *)
Equations? while_loop (result num power modulus : Z) : Z
  by wf (bit_length power) lt :=
  while_loop result num power modulus with Z_gt_le_dec power 0 => {
    | left _ =>
        while_loop
          (if Z.rem power 2 =? 1 then Z.rem (result * num) modulus else result)
          (Z.rem (num * num) modulus)
          (Z.shiftr power 1)
          modulus;
    | right _ => result }.
Proof.
  destruct power as [|p|p]; try lia.
  destruct p; simpl; lia.
Qed.

Definition bigIntExponentiation (num power modulus : Z) : completion Z :=
  if modulus =? 0 then Throw RangeError  (* [num % modulus] divides by zero *)
  else Normal (while_loop 1 (Z.rem num modulus) power modulus).

(** ** Domain parameters *)

Definition dhparam : string :=
  "00:aa:d9:ea:e2:b5:3d:86:fb:88:51:99:ea:cf:14:" +:+
  "cd:65:f9:86:25:1e:e9:f9:42:e5:97:14:6c:49:dc:" +:+
  "4c:38:e8:4c:44:24:df:f9:0f:c2:8e:cd:66:11:37:" +:+
  "95:df:fe:53:a6:c5:50:1f:61:8b:fd:e8:9c:17:4d:" +:+
  "84:6b:08:6d:29:76:39:79:fc:91:ea:c2:af:ad:b5:" +:+
  "11:ab:de:3d:7b:d6:7f:31:8c:dc:29:2e:9a:39:6a:" +:+
  "6c:cf:5f:6c:24:0c:10:21:92:8b:85:5b:67:f0:ae:" +:+
  "62:93:2d:eb:75:a6:bc:f7:0c:71:8c:cd:96:0d:53:" +:+
  "58:e3:7b:76:71:a9:8b:2a:93".

(** [s.split(":")] joined back without a separator *)
Fixpoint drop_colons (s : string) : string :=
  match s with
  | EmptyString => EmptyString
  | String c rest =>
      if Ascii.eqb c ":" then drop_colons rest else String c (drop_colons rest)
  end.

Definition N : Z :=
  0x00aad9eae2b53d86fb885199eacf14cd65f986251ee9f942e597146c49dc4c38e84c4424dff90fc28ecd66113795dffe53a6c5501f618bfde89c174d846b086d29763979fc91eac2afadb511abde3d7bd67f318cdc292e9a396a6ccf5f6c240c1021928b855b67f0ae62932deb75a6bcf70c718ccd960d5358e37b7671a98b2a93.

Definition g : Z := 2.

Definition statusOk : Z := 200.
Definition statusUnauthorized : Z := 401.
Definition statusBadRequest : Z := 400.
Definition statusInternalServerError : Z := 500.

(** ** [generateSalt]

    [crypto.getRandomValues] fills the array, unless it is longer than
    65536 bytes, which it refuses; [random i] is the byte it puts at index
    [i] on this call.  (An array too long to be allocated at all fails
    one line earlier; the model reports the refusal for every length above
    65536.) *)
Definition generateSalt (length : nat) (random : nat -> Byte.byte) : completion Z :=
  if 65536 <? Z.of_nat length then Throw QuotaExceededError else
  let saltBytes := map random (seq 0 length) in
  let saltString := String.concat EmptyString (map byte_hex saltBytes) in
  BigInt_0x saltString.

(** ** The connection: closure variables, inputs and observable effects *)

Record session : Type := mkSession {
  _I : value;   (* username *)
  _A : Z;       (* client public ephemeral value *)
  _B : Z;       (* server public ephemeral value *)
  _b : Z;       (* server secret ephemeral value *)
  _s : value;   (* user salt: the empty string at first, a BigInt once looked up *)
  _v : Z;       (* password verifier *)
  _u : Z;       (* random scrambling parameter *)
  _K : Z        (* hash of the session key *)
}.

Definition initial_session : session :=
  {| _I := VString EmptyString; _A := 0; _B := 0; _b := 0;
     _s := VString EmptyString; _v := 0; _u := 0; _K := 0 |}.

(** Objects handed to [JSON.stringify]. *)
#[warnings="-register-all"]
Inductive json : Type :=
| JNull
| JBool (b : bool)
| JNumber (z : Z)
| JString (s : string)
| JArray (items : list json)
| JObject (fields : list (string * json)).

Inductive event : Type :=
| ConsoleLog (label : string) (shown : list value)
                                               (* [console.log]: the line's leading text and the values it prints *)
| WsSend (payload : json)                      (* [ws.send(JSON.stringify(payload))] *)
| WsClose (args : option (Z * json))           (* [ws.close()] or [ws.close(code, JSON.stringify(reason))] *)
| DbAll (sql : string) (params : list value).  (* [db.all(sql, params, callback)] *)

(** A parsed inbound message [{ serial, data }].  A missing (or [null])
    [data] is [None]; an object is the map of its string fields (a field
    holding a JSON number behaves as the string of its digits).  The
    [switch] compares [serial] strictly with 2, 3, 5 and 7, so a tag of any
    other kind takes the default branch like an integer outside that set. *)
Record message : Type := mkMessage {
  serial : Z;
  data : option (gmap string string)
}.

(** One row of [select s, v from users]. *)
Record row : Type := mkRow { row_s : string; row_v : string }.

(** What the event loop delivers to one connection: an inbound message, or
    the completion of a store lookup started by an earlier phase-2 message
    (the callback closes over that message's [serial] and [I]). *)
Inductive input : Type :=
| Inbound (m : message)
| Lookup (serial : Z) (I : value) (random : nat -> Byte.byte)
         (error : option json) (rows : list row).

(** ** The handler monad: closure state, emitted events, exceptions *)

Record result (A : Type) : Type := mkResult {
  outcome : completion A;
  state : session;
  events : list event
}.
Arguments mkResult {A} outcome state events.
Arguments outcome {A} r.
Arguments state {A} r.
Arguments events {A} r.

Definition M (A : Type) : Type := session -> result A.

Definition ret {A} (a : A) : M A :=
  fun st => mkResult (Normal a) st [].

Definition throw {A} (e : exn) : M A :=
  fun st => mkResult (Throw e) st [].

(** Sequencing: the continuation runs in the state the first part left;
    an exception skips it and keeps the state and events so far. *)
Definition bind {A B} (m : M A) (f : A -> M B) : M B :=
  fun st =>
    match m st with
    | mkResult (Normal a) st1 evs1 =>
        match f a st1 with
        | mkResult o st2 evs2 => mkResult o st2 (evs1 ++ evs2)%list
        end
    | mkResult (Throw e) st1 evs1 => mkResult (Throw e) st1 evs1
    end.

Notation "x <- c1 ;; c2" := (bind c1 (fun x => c2))
  (at level 100, c1 at next level, right associativity).
Notation "c1 ;; c2" := (bind c1 (fun _ => c2))
  (at level 100, right associativity).

Definition lift {A} (c : completion A) : M A :=
  match c with
  | Normal a => ret a
  | Throw e => throw e
  end.

Definition get : M session :=
  fun st => mkResult (Normal st) st [].

Definition modify (f : session -> session) : M unit :=
  fun st => mkResult (Normal tt) (f st) [].

Definition emit (e : event) : M unit :=
  fun st => mkResult (Normal tt) st [e].

Definition set_I (x : value) : M unit :=
  modify (fun st => {| _I := x; _A := _A st; _B := _B st; _b := _b st;
                       _s := _s st; _v := _v st; _u := _u st; _K := _K st |}).
Definition set_A (x : Z) : M unit :=
  modify (fun st => {| _I := _I st; _A := x; _B := _B st; _b := _b st;
                       _s := _s st; _v := _v st; _u := _u st; _K := _K st |}).
Definition set_B (x : Z) : M unit :=
  modify (fun st => {| _I := _I st; _A := _A st; _B := x; _b := _b st;
                       _s := _s st; _v := _v st; _u := _u st; _K := _K st |}).
Definition set_b (x : Z) : M unit :=
  modify (fun st => {| _I := _I st; _A := _A st; _B := _B st; _b := x;
                       _s := _s st; _v := _v st; _u := _u st; _K := _K st |}).
Definition set_s (x : value) : M unit :=
  modify (fun st => {| _I := _I st; _A := _A st; _B := _B st; _b := _b st;
                       _s := x; _v := _v st; _u := _u st; _K := _K st |}).
Definition set_v (x : Z) : M unit :=
  modify (fun st => {| _I := _I st; _A := _A st; _B := _B st; _b := _b st;
                       _s := _s st; _v := x; _u := _u st; _K := _K st |}).
Definition set_u (x : Z) : M unit :=
  modify (fun st => {| _I := _I st; _A := _A st; _B := _B st; _b := _b st;
                       _s := _s st; _v := _v st; _u := x; _K := _K st |}).
Definition set_K (x : Z) : M unit :=
  modify (fun st => {| _I := _I st; _A := _A st; _B := _B st; _b := _b st;
                       _s := _s st; _v := _v st; _u := _u st; _K := x |}).

Definition console_log (label : string) (shown : list value) : M unit :=
  emit (ConsoleLog label shown).
Definition ws_send (payload : json) : M unit := emit (WsSend payload).
Definition ws_close (args : option (Z * json)) : M unit := emit (WsClose args).
Definition db_all (sql : string) (params : list value) : M unit :=
  emit (DbAll sql params).

(** [const { ... } = data]: destructuring [undefined] is a [TypeError]. *)
Definition destructure (data : option (gmap string string)) : M (gmap string string) :=
  match data with
  | Some d => ret d
  | None => throw TypeError
  end.

(** Reading one property of the payload object. *)
Definition prop (d : gmap string string) (key : string) : value :=
  match d !! key with
  | Some s => VString s
  | None => VUndefined
  end.

Section Session.

(** [crypto.createHash("sha256").update(text).digest()]: the raw digest. *)
Variable sha256 : string -> list Byte.byte.

(** [hash(...args)] *)
Definition hash (args : list value) : completion Z :=
  let text := join ":" args in
  BigInt_0x (bytes_hex (sha256 text)).

(** The multiplier [k = hash(N, g)], computed once when the module loads. *)
Variable k : Z.

(** The callback given to [db.all] by the phase-2 handler. *)
Definition lookup_callback (serial : Z) (I : value) (random : nat -> Byte.byte)
    (error : option json) (rows : list row) : M unit :=
  match error with
  | Some err =>
      console_log "failed to find" [I] ;;
      ws_send (JObject [("serial", JNumber 0x99);
                        ("data", JObject [("error", err)])]) ;;
      ws_close None
  | None =>
      r <- match rows with
           | r :: _ => ret r
           | [] => throw TypeError   (* [rows[0]] is [undefined] *)
           end ;;
      let s := row_s r in
      let v := row_v r in
      zs <- lift (BigInt_0x s) ;;
      set_s (VBigInt zs) ;;
      zv <- lift (BigInt_0x v) ;;
      set_v zv ;;
      st <- get ;;
      console_log "s(user salt)" [_s st; VBigInt (_v st)] ;;
      salt <- lift (generateSalt 32 random) ;;
      let b := Z.rem salt N in
      set_b b ;;
      st <- get ;;
      e <- lift (bigIntExponentiation g b N) ;;
      let B := Z.rem (k * _v st + e) N in
      set_B B ;;
      ws_send (JObject [("serial", JNumber (serial + 1));
                        ("data", JObject [("s", JString s);
                                          ("B", JString (BigInt_toString16 B))])]) ;;
      st <- get ;;
      console_log "b(secret ephemeral values)" [VBigInt (_b st); VBigInt (_B st)]
  end.

(** [ws.on("message", ...)] *)
Definition on_message (m : message) : M unit :=
  let serial := serial m in
  let data := data m in
  if serial =? 2 then
    d <- destructure data ;;
    let I := prop d "I" in
    let A := prop d "A" in
    set_I I ;;
    a <- lift (BigInt_0x (template A)) ;;
    set_A a ;;
    st <- get ;;
    console_log "I(username)" [_I st; VBigInt (_A st)] ;;
    if Z.rem (_A st) N =? 0 then
      ws_close None
    else
      db_all "select s, v from users where I = ?" [I]
  else if serial =? 3 then
    st <- get ;;
    u <- lift (hash [VBigInt (_A st); VBigInt (_B st)]) ;;
    set_u u ;;
    st <- get ;;
    console_log "u(random scrambling parameter)" [VBigInt (_u st)] ;;
    ws_send (JObject [("serial", JNumber (serial + 1))])
  else if serial =? 5 then
    st <- get ;;
    inner <- lift (bigIntExponentiation (_v st) (_u st) N) ;;
    S <- lift (bigIntExponentiation (_A st * inner) (_b st) N) ;;
    K <- lift (hash [VBigInt S]) ;;
    set_K K ;;
    st <- get ;;
    console_log "S(session key)" [VBigInt S; VBigInt (_K st)] ;;
    ws_send (JObject [("serial", JNumber (serial + 1))])
  else if serial =? 7 then
    d <- destructure data ;;
    let C_M := prop d "C_M" in
    st <- get ;;
    hN <- lift (hash [VBigInt N]) ;;
    hg <- lift (hash [VBigInt g]) ;;
    hI <- lift (hash [_I st]) ;;
    S_M <- lift (hash [VBigInt (Z.lxor hN hg); VBigInt hI; _s st;
                       VBigInt (_A st); VBigInt (_B st); VBigInt (_K st)]) ;;
    shown <- lift (BigInt_0x (template C_M)) ;;
    console_log "C_M(client M)" [VBigInt shown; VBigInt S_M] ;;
    c <- lift (BigInt_0x (template C_M)) ;;
    ws_close (Some (1000, JObject [("status",
                JNumber (if S_M =? c then statusOk else statusUnauthorized))]))
  else
    match data with
    | Some d => console_log "unexpected error:" [prop d "error"]
    | None => throw TypeError   (* [data.error] on [undefined] *)
    end.

(** [wsServer.on("connection", ...)]: fresh closure variables, then
    [ws.send({ serial: 1 })]. *)
Definition on_connection : result unit :=
  (console_log "LOGIN" [] ;;
   ws_send (JObject [("serial", JNumber 1)])) initial_session.

(** One delivery of the event loop. *)
Definition deliver (i : input) : M unit :=
  match i with
  | Inbound m => on_message m
  | Lookup tag who random error rows => lookup_callback tag who random error rows
  end.

(** A whole run of one connection: every delivery starts from the closure
    variables the previous one left, whether it completed or threw. *)
Fixpoint run (st : session) (inputs : list input) : session * list event :=
  match inputs with
  | [] => (st, [])
  | i :: rest =>
      let r := deliver i st in
      let '(st', evs) := run (state r) rest in
      (st', (events r ++ evs)%list)
  end.

End Session.

(** ** Reference definitions

    The digest and the modular power as the specification words them, to
    be compared with [hash] and [bigIntExponentiation]. *)

Definition spec_render (v : value) : string :=
  match v with
  | VUndefined => EmptyString
  | VString s => s
  | VBigInt z => BigInt_toString16 z   (* "lowercase hexadecimal without prefix" *)
  end.

Definition spec_digest (sha256 : string -> list Byte.byte) (parts : list value) : Z :=
  be_uint (sha256 (String.concat ":" (map spec_render parts))).

Definition spec_modPow (base exponent modulus : Z) : Z :=
  (base ^ exponent) mod modulus.

(** Reading a string of decimal digits, to state what [BigInt_toString]
    prints. *)
Definition decimal_digit_value (c : ascii) : option Z :=
  let n := Z.of_N (N_of_ascii c) in
  if (48 <=? n) && (n <=? 57) then Some (n - 48) else None.

Fixpoint decimal_digits_value (acc : Z) (s : string) : option Z :=
  match s with
  | EmptyString => Some acc
  | String c rest =>
      match decimal_digit_value c with
      | Some d => decimal_digits_value (10 * acc + d) rest
      | None => None
      end
  end.

(** A stand-in for the digest with the right output length (the text's
    first 32 bytes, zero padded), to run the handler on concrete inputs. *)
Definition sample_digest (text : string) : list Byte.byte :=
  firstn 32 (list_byte_of_string text ++ repeat Byte.x00 32).

(** One possible draw of [getRandomValues]: thirty zero bytes, then
    [0x5a 0xc3]. *)
Definition sample_random (i : nat) : Byte.byte :=
  if (i <? 30)%nat then Byte.x00 else if Nat.even i then Byte.x5a else Byte.xc3.

(** The value of [k = hash(N, g)] for a given digest. *)
Definition multiplier (sha256 : string -> list Byte.byte) : Z :=
  be_uint (sha256 (join ":" [VBigInt N; VBigInt g])).

(** Sample traffic: a login of "alice" up to the phase-4 acknowledgement,
    then a second phase-2 message on the same connection. *)
Definition login_request (I A : string) : message :=
  {| serial := 2; data := Some (<["I" := I]> (<["A" := A]> ∅)) |}.

Definition trigger (tag : Z) : message :=
  {| serial := tag; data := None |}.

Definition alice_until_phase4 : list input :=
  [Inbound (login_request "alice" "5");
   Lookup 2 (VString "alice") sample_random None [{| row_s := "1f"; row_v := "2a" |}];
   Inbound (trigger 3)].

Definition replayed_phase2 : input :=
  Inbound (login_request "mallory" "7").

(** A phase-7 message, and the proof a fresh connection expects under
    [sample_digest]. *)
Definition proof_message (C_M : string) : message :=
  {| serial := 7; data := Some (<["C_M" := C_M]> ∅) |}.

Definition sample_expected_proof : Z :=
  let st := initial_session in
  let H args := be_uint (sample_digest (join ":" args)) in
  H [VBigInt (Z.lxor (H [VBigInt N]) (H [VBigInt g])); VBigInt (H [_I st]);
     _s st; VBigInt (_A st); VBigInt (_B st); VBigInt (_K st)].

(** A computation preserves a closure variable when no run of it, from any
    state, changes the variable (whether it completes or throws). *)
Definition preserves {A X} (field : session -> X) (c : M A) : Prop :=
  forall st, field (state (c st)) = field st.

(** Inputs that may write a given group of closure variables. *)
Definition is_inbound (tag : Z) (i : input) : bool :=
  match i with
  | Inbound m => serial m =? tag
  | Lookup _ _ _ _ _ => false
  end.

Definition is_lookup (i : input) : bool :=
  match i with
  | Inbound _ => false
  | Lookup _ _ _ _ _ => true
  end.

(** ** [app.post("/register", ...)]

    The request body is the parsed JSON object; a field is absent or any
    JSON value (a number is modelled when it is an integer; every other
    number is truthy).  The route's effects are the response it sends and
    the statement it hands to the store. *)

Inductive http_event : Type :=
| RouteLog (label : string)                          (* [console.log(...)] *)
| ResSend (status : Z) (body : string)               (* [res.status(status).send(body)] *)
| DbRun (sql : string) (params : list (option json)).  (* [db.run(sql, params, callback)] *)

(** JavaScript truthiness of a body field: [undefined], [null], [false],
    [0] and the empty string are falsy, everything else is truthy. *)
Definition truthy (field : option json) : bool :=
  match field with
  | None => false
  | Some JNull => false
  | Some (JBool b) => b
  | Some (JNumber z) => negb (z =? 0)
  | Some (JString s) => match s with EmptyString => false | _ => true end
  | Some (JArray _) => true
  | Some (JObject _) => true
  end.

Definition register (body : gmap string json) : list http_event :=
  let I := body !! "I" in
  let s := body !! "s" in
  let v := body !! "v" in
  if negb (truthy I) || negb (truthy s) || negb (truthy v) then
    [ResSend statusBadRequest "Failed to get I, s and v"]
  else
    [RouteLog "REGISTER";
     DbRun "insert into users(I, s, v) values (?, ?, ?)" [I; s; v]].

(** The callback given to [db.run]; [error] carries [error.message]. *)
Definition register_callback (error : option string) : list http_event :=
  match error with
  | Some message =>
      [RouteLog "register fail:"; ResSend statusInternalServerError message]
  | None => [ResSend statusOk "register success"]
  end.

(** ** Observations on the events of a delivery *)

Definition is_close (e : event) : bool :=
  match e with
  | WsClose _ => true
  | _ => false
  end.

Definition is_send (e : event) : bool :=
  match e with
  | WsSend _ => true
  | _ => false
  end.


(** A login in the order the protocol intends: phase 2, the store's
    answer, phases 3 and 5, then the proof. *)
Definition handshake (I A : string) (random : nat -> Byte.byte) (r : row)
    (C_M : string) : list input :=
  [Inbound (login_request I A);
   Lookup 2 (VString I) random None [r];
   Inbound (trigger 3);
   Inbound (trigger 5);
   Inbound (proof_message C_M)].

(** The integers the phase-5 computation reads are non-negative. *)
Definition fields_nonneg (st : session) : Prop :=
  0 <= _A st /\ 0 <= _v st /\ 0 <= _u st /\ 0 <= _b st.

(** A session in which the phase-5 exponents are not zero. *)
Definition keyed_session : session :=
  {| _I := VString "alice"; _A := 5; _B := 0; _b := 2;
     _s := VBigInt 31; _v := 42; _u := 3; _K := 0 |}.

(** * Properties of the helpers *)

Lemma N_from_dhparam : BigInt_0x (drop_colons dhparam) = Normal N.
Proof. vm_compute. reflexivity. Qed.

Lemma N_nonzero : N <> 0.
Proof. discriminate. Qed.

(** ** Hexadecimal text and big-endian bytes *)

#[local] Arguments String.append !_ _ / : simpl nomatch.

Lemma append_empty_r (s : string) : s +:+ EmptyString = s.
Proof. induction s as [|c s IH]; simpl; congruence. Qed.

Lemma concat_empty_cons (x : string) (xs : list string) :
  String.concat EmptyString (x :: xs) = x +:+ String.concat EmptyString xs.
Proof.
  destruct xs as [|y ys]; simpl.
  - now rewrite append_empty_r.
  - reflexivity.
Qed.

Lemma bytes_hex_cons (b : Byte.byte) (bs : list Byte.byte) :
  bytes_hex (b :: bs) = byte_hex b +:+ bytes_hex bs.
Proof. unfold bytes_hex. simpl map. apply concat_empty_cons. Qed.

Lemma hex_digits_value_byte (b : Byte.byte) (acc : Z) (rest : string) :
  hex_digits_value acc (byte_hex b +:+ rest)
  = hex_digits_value (256 * acc + Z.of_N (Byte.to_N b)) rest.
Proof.
  destruct b; cbn -[Z.mul Z.add hex_digits_value];
    cbn [hex_digits_value]; cbv [hex_digit_value]; cbn -[Z.mul Z.add hex_digits_value];
    f_equal; lia.
Qed.

Lemma hex_digits_value_bytes (bs : list Byte.byte) (acc : Z) :
  hex_digits_value acc (bytes_hex bs)
  = Some (fold_left (fun a b => 256 * a + Z.of_N (Byte.to_N b)) bs acc).
Proof.
  revert acc. induction bs as [|b bs IH]; intros acc.
  - reflexivity.
  - rewrite bytes_hex_cons, hex_digits_value_byte. apply IH.
Qed.

(** A string that starts with an ASCII character other than white space
    is not white space. *)
Lemma all_white_space_ascii (c : ascii) (s : string) :
  is_white_space c = false -> Z.of_N (N_of_ascii c) < 128 ->
  all_white_space (String c s) = false.
Proof.
  intros Hc Hlt. cbn [all_white_space]. rewrite Hc.
  destruct s as [|c2 s2]; [reflexivity|]. cbv zeta.
  unfold white_space_2.
  destruct (Z.eqb_spec (Z.of_N (N_of_ascii c)) 0xC2) as [E|_]; [lia|].
  cbn [andb]. destruct s2 as [|c3 s3]; [reflexivity|].
  unfold white_space_3.
  destruct (Z.eqb_spec (Z.of_N (N_of_ascii c)) 0xE1) as [E|_]; [lia|].
  destruct (Z.eqb_spec (Z.of_N (N_of_ascii c)) 0xE2) as [E|_]; [lia|].
  destruct (Z.eqb_spec (Z.of_N (N_of_ascii c)) 0xE3) as [E|_]; [lia|].
  destruct (Z.eqb_spec (Z.of_N (N_of_ascii c)) 0xEF) as [E|_]; [lia|].
  reflexivity.
Qed.

Lemma trim_end_fixed (c : ascii) (s : string) :
  is_white_space c = false -> Z.of_N (N_of_ascii c) < 128 ->
  trim_end s = s -> trim_end (String c s) = String c s.
Proof.
  intros Hc Hlt Hs. cbn [trim_end].
  rewrite (all_white_space_ascii c s Hc Hlt). now rewrite Hs.
Qed.

Lemma trim_end_byte_hex (b : Byte.byte) (rest : string) :
  trim_end rest = rest -> trim_end (byte_hex b +:+ rest) = byte_hex b +:+ rest.
Proof.
  intros Hrest.
  destruct b; cbn -[trim_end];
    (do 2 (apply trim_end_fixed; [reflexivity|reflexivity|])); exact Hrest.
Qed.

Lemma trim_end_bytes_hex (bs : list Byte.byte) : trim_end (bytes_hex bs) = bytes_hex bs.
Proof.
  induction bs as [|b bs IH]; [reflexivity|].
  rewrite bytes_hex_cons. now apply trim_end_byte_hex.
Qed.

Lemma byte_hex_two_digits (b : Byte.byte) :
  exists c1 c2, byte_hex b = String c1 (String c2 EmptyString).
Proof. destruct b; do 2 eexists; reflexivity. Qed.

Lemma bytes_hex_nonempty (b : Byte.byte) (bs : list Byte.byte) :
  exists c rest, bytes_hex (b :: bs) = String c rest.
Proof.
  rewrite bytes_hex_cons. destruct (byte_hex_two_digits b) as (c1 & c2 & ->).
  simpl. eauto.
Qed.

(** Printing bytes in hexadecimal and reading the text back as a BigInt
    literal gives the bytes' big-endian value. *)
Lemma BigInt_0x_bytes_hex (bs : list Byte.byte) :
  bs <> [] -> BigInt_0x (bytes_hex bs) = Normal (be_uint bs).
Proof.
  intros Hne. destruct bs as [|b bs]; [congruence|].
  unfold BigInt_0x. rewrite trim_end_bytes_hex.
  destruct (bytes_hex_nonempty b bs) as (c & rest & E).
  rewrite E. cbv beta iota. rewrite <- E, hex_digits_value_bytes. reflexivity.
Qed.

Lemma be_uint_nonneg (bs : list Byte.byte) : 0 <= be_uint bs.
Proof.
  unfold be_uint.
  assert (G : forall acc, 0 <= acc ->
            0 <= fold_left (fun a b => 256 * a + Z.of_N (Byte.to_N b)) bs acc).
  { induction bs as [|b bs IH]; intros acc Hacc; simpl; [exact Hacc|].
    apply IH. lia. }
  apply G. lia.
Qed.

(** ** The square-and-multiply loop *)

Lemma while_loop_exit (result num power modulus : Z) :
  power <= 0 -> while_loop result num power modulus = result.
Proof.
  intros Hle. rewrite while_loop_equation_1.
  destruct (Z_gt_le_dec power 0); [lia | reflexivity].
Qed.

Lemma while_loop_step (result num power modulus : Z) :
  0 < power ->
  while_loop result num power modulus
  = while_loop (if Z.rem power 2 =? 1 then Z.rem (result * num) modulus else result)
               (Z.rem (num * num) modulus) (Z.shiftr power 1) modulus.
Proof.
  intros Hpos. rewrite while_loop_equation_1 at 1.
  destruct (Z_gt_le_dec power 0); [reflexivity | lia].
Qed.

Lemma shiftr_1_halves (power : Z) :
  0 <= power -> power = 2 * Z.shiftr power 1 + Z.rem power 2.
Proof.
  intros Hp. rewrite Z.shiftr_div_pow2 by lia. change (2 ^ 1) with 2.
  rewrite Z.rem_mod_nonneg by lia. apply Z.div_mod. lia.
Qed.

Lemma shiftr_1_decreases (power : Z) :
  0 < power -> 0 <= Z.shiftr power 1 < power.
Proof.
  intros Hp. rewrite Z.shiftr_div_pow2 by lia. change (2 ^ 1) with 2.
  split; [apply Z.div_pos; lia | apply Z.div_lt; lia].
Qed.

Lemma rem_pow (a e m : Z) :
  m <> 0 -> 0 <= e -> Z.rem (Z.rem a m ^ e) m = Z.rem (a ^ e) m.
Proof.
  intros Hm He. pattern e. apply natlike_ind; [reflexivity| |exact He].
  intros x Hx IH. rewrite !Z.pow_succ_r by exact Hx.
  rewrite (Z.mul_rem (Z.rem a m)), IH by exact Hm.
  rewrite Z.rem_rem by exact Hm.
  now rewrite <- Z.mul_rem.
Qed.

(** Loop invariant: once the loop body has run, the result is
    [result * num ^ power] reduced by [%]. *)
Lemma while_loop_power_pos (power : Z) :
  0 < power ->
  forall result num modulus,
    modulus <> 0 ->
    while_loop result num power modulus = Z.rem (result * num ^ power) modulus.
Proof.
  intros Hpos. assert (Hpower : 0 <= power) by lia. revert Hpos.
  pattern power. apply Zlt_0_ind; [|exact Hpower].
  clear power Hpower.
  intros power IH Hpower Hpos result num modulus Hm.
  rewrite while_loop_step by lia.
  pose proof (shiftr_1_decreases power Hpos) as Hq.
  pose proof (shiftr_1_halves power Hpower) as Hsplit.
  set (q := Z.shiftr power 1) in *.
  assert (Hr : Z.rem power 2 = 0 \/ Z.rem power 2 = 1).
  { rewrite Z.rem_mod_nonneg by lia.
    pose proof (Z.mod_pos_bound power 2 ltac:(lia)). lia. }
  assert (Hpow : num ^ power = (num * num) ^ q * num ^ Z.rem power 2).
  { rewrite Hsplit at 1. rewrite Z.pow_add_r by lia.
    rewrite Z.pow_mul_r by lia. now rewrite Z.pow_2_r. }
  destruct (Z.eq_dec q 0) as [Hq0|Hq0].
  - (* last iteration: [power = 1] *)
    rewrite Hq0 in *. rewrite while_loop_exit by lia.
    assert (E : Z.rem power 2 = 1) by lia.
    rewrite Hpow, E. change (1 =? 1) with true. cbv iota.
    f_equal. rewrite Z.pow_0_r, Z.pow_1_r. ring.
  - rewrite IH by lia.
    rewrite <- Z.mul_rem_idemp_r by exact Hm.
    rewrite rem_pow by lia.
    rewrite Z.mul_rem_idemp_r by exact Hm.
    rewrite Hpow.
    destruct Hr as [E|E]; rewrite E;
      [change (0 =? 1) with false | change (1 =? 1) with true]; cbv iota.
    + f_equal. rewrite Z.pow_0_r. ring.
    + rewrite Z.mul_rem_idemp_l by exact Hm. f_equal. rewrite Z.pow_1_r. ring.
Qed.

Lemma while_loop_power (power : Z) :
  0 <= power ->
  forall result num modulus,
    modulus <> 0 -> Z.rem result modulus = result ->
    while_loop result num power modulus = Z.rem (result * num ^ power) modulus.
Proof.
  intros Hpower result num modulus Hm Hres.
  destruct (Z.eq_dec power 0) as [->|Hnz].
  - rewrite while_loop_exit by lia. rewrite Z.pow_0_r, Z.mul_1_r. now symmetry.
  - apply while_loop_power_pos; [lia | exact Hm].
Qed.

Lemma bigIntExponentiation_rem (num power modulus : Z) :
  0 <= power -> 1 < modulus ->
  bigIntExponentiation num power modulus = Normal (Z.rem (num ^ power) modulus).
Proof.
  intros Hp Hm. unfold bigIntExponentiation.
  destruct (Z.eqb_spec modulus 0) as [E|_]; [lia|].
  f_equal. rewrite while_loop_power; [ | exact Hp | lia | apply Z.rem_small; lia].
  rewrite Z.mul_1_l. apply rem_pow; lia.
Qed.

Lemma bigIntExponentiation_zero_power (num modulus : Z) :
  modulus <> 0 -> bigIntExponentiation num 0 modulus = Normal 1.
Proof.
  intros Hm. unfold bigIntExponentiation.
  destruct (Z.eqb_spec modulus 0) as [E|_]; [contradiction|].
  now rewrite while_loop_exit.
Qed.

Lemma bigIntExponentiation_modulus_one (num power : Z) :
  0 < power -> bigIntExponentiation num power 1 = Normal 0.
Proof.
  intros Hp. unfold bigIntExponentiation. simpl (1 =? 0).
  f_equal. rewrite while_loop_power_pos by lia.
  apply Z.rem_1_r.
Qed.

Lemma pos_below_pow2_size (p : positive) : Zpos p < 2 ^ Z.of_nat (Pos.size_nat p).
Proof.
  induction p as [p IH|p IH|]; simpl Pos.size_nat;
    rewrite ?Nat2Z.inj_succ, ?Z.pow_succ_r by lia; lia.
Qed.

(** After [bit_length power] right shifts nothing is left of the exponent. *)
Lemma shiftr_bit_length (power : Z) :
  0 <= power -> Z.shiftr power (Z.of_nat (bit_length power)) = 0.
Proof.
  intros Hp. destruct power as [|p|p]; [reflexivity| |lia].
  rewrite Z.shiftr_div_pow2 by lia.
  apply Z.div_small. split; [lia | apply pos_below_pow2_size].
Qed.

(** * Claims about [bigIntExponentiation] *)

(** C2 (as amended).  For every non-negative exponent and every modulus
    greater than 1, [bigIntExponentiation] returns [base ^ exponent] reduced
    by the language's remainder [%], which takes the sign of [base ^ exponent];
    for every non-negative base this is the mathematical modular power
    [base ^ exponent mod modulus], and for every base it is congruent to it. *)
Theorem C2_bigIntExponentiation_power (num power modulus : Z) :
  0 <= power -> 1 < modulus ->
  bigIntExponentiation num power modulus = Normal (Z.rem (num ^ power) modulus)
  /\ (0 <= num ->
      bigIntExponentiation num power modulus = Normal (spec_modPow num power modulus))
  /\ Z.rem (num ^ power) modulus mod modulus = spec_modPow num power modulus.
Proof.
  intros Hp Hm. split; [now apply bigIntExponentiation_rem|]. split.
  - intros Hnum. rewrite bigIntExponentiation_rem by assumption.
    unfold spec_modPow. f_equal. apply Z.rem_mod_nonneg; [|lia].
    now apply Z.pow_nonneg.
  - unfold spec_modPow.
    rewrite (Z.quot_rem' (num ^ power) modulus) at 2.
    rewrite Z.add_comm, Z.mul_comm. now rewrite Z.mod_add by lia.
Qed.

Lemma C2_bigIntExponentiation_power_witness :
  bigIntExponentiation 7 5 13 = Normal (Z.rem (7 ^ 5) 13)
  /\ (0 <= 7 -> bigIntExponentiation 7 5 13 = Normal (spec_modPow 7 5 13))
  /\ Z.rem (7 ^ 5) 13 mod 13 = spec_modPow 7 5 13.
Proof. apply (C2_bigIntExponentiation_power 7 5 13); lia. Defined.

(** C2 (as stated) fails for a negative base: [(-2) ^ 1 mod 3] is [1], the
    function returns [-2]. *)
Lemma C2_negative_base_counterexample :
  bigIntExponentiation (-2) 1 3 = Normal (-2)
  /\ spec_modPow (-2) 1 3 = 1
  /\ bigIntExponentiation (-2) 1 3 <> Normal (spec_modPow (-2) 1 3).
Proof.
  assert (E : bigIntExponentiation (-2) 1 3 = Normal (-2)).
  { rewrite bigIntExponentiation_rem by lia. reflexivity. }
  rewrite E. repeat split. discriminate.
Qed.

(** C8.  With modulus 1 and exponent 0 the function returns 1, although
    [a ^ 0 mod 1] is 0: the loop body never runs and the initial
    [result = 1n] is returned without being reduced. *)
Theorem C8_modulus_one_exponent_zero :
  bigIntExponentiation 5 0 1 = Normal 1 /\ spec_modPow 5 0 1 = 0.
Proof. split; [apply bigIntExponentiation_zero_power; lia | reflexivity]. Qed.

(** C10.  For every base, exponent and nonzero modulus the call returns:
    a positive exponent strictly decreases under the right shift (and is
    used up after [bit_length] shifts), for an exponent that is not positive
    the loop body does not run, and a negative exponent yields 1. *)
Theorem C10_bigIntExponentiation_terminates (num power modulus : Z) :
  modulus <> 0 ->
  (exists r, bigIntExponentiation num power modulus = Normal r)
  /\ (0 < power -> 0 <= Z.shiftr power 1 < power
                   /\ Z.shiftr power (Z.of_nat (bit_length power)) = 0)
  /\ (power < 0 -> (forall result num', while_loop result num' power modulus = result)
                   /\ bigIntExponentiation num power modulus = Normal 1).
Proof.
  intros Hm.
  assert (E : bigIntExponentiation num power modulus
              = Normal (while_loop 1 (Z.rem num modulus) power modulus)).
  { unfold bigIntExponentiation. now destruct (Z.eqb_spec modulus 0). }
  split; [eexists; exact E|]. split.
  - intros Hp. split; [now apply shiftr_1_decreases | apply shiftr_bit_length; lia].
  - intros Hneg. split.
    + intros result num'. apply while_loop_exit. lia.
    + rewrite E. f_equal. apply while_loop_exit. lia.
Qed.

Lemma C10_bigIntExponentiation_terminates_witness :
  (* a positive exponent: two shifts use up [5 = 0b101] after three *)
  ((exists r, bigIntExponentiation 3 5 7 = Normal r)
   /\ 0 <= Z.shiftr 5 1 < 5
   /\ Z.shiftr 5 (Z.of_nat (bit_length 5)) = 0)
  (* a negative exponent: the loop body does not run *)
  /\ ((forall result num', while_loop result num' (-4) 7 = result)
      /\ bigIntExponentiation 3 (-4) 7 = Normal 1).
Proof.
  split.
  - destruct (C10_bigIntExponentiation_terminates 3 5 7) as (Hr & Hpos & _); [lia|].
    split; [exact Hr | apply Hpos; lia].
  - destruct (C10_bigIntExponentiation_terminates 3 (-4) 7) as (_ & _ & Hneg); [lia|].
    apply Hneg. lia.
Defined.

(** * Properties of [hash] *)

(** ** What [BigInt.prototype.toString()] prints *)

Lemma decimal_digits_value_acc (u : Decimal.uint) (acc : positive) :
  decimal_digits_value (Zpos acc) (DecimalString.NilEmpty.string_of_uint u)
  = Some (Zpos (Pos.of_uint_acc u acc)).
Proof.
  revert acc. induction u as [|u IH|u IH|u IH|u IH|u IH|u IH|u IH|u IH|u IH|u IH];
    intros acc; [reflexivity|..];
    cbn [DecimalString.NilEmpty.string_of_uint decimal_digits_value Pos.of_uint_acc];
    match goal with
    | |- context [decimal_digit_value ?c] =>
        let v := eval vm_compute in (decimal_digit_value c) in
        change (decimal_digit_value c) with v
    end; cbv iota; rewrite <- IH; f_equal; lia.
Qed.

Lemma decimal_digits_value_uint (u : Decimal.uint) :
  decimal_digits_value 0 (DecimalString.NilEmpty.string_of_uint u)
  = Some (Z.of_N (Pos.of_uint u)).
Proof.
  induction u as [|u IH|u IH|u IH|u IH|u IH|u IH|u IH|u IH|u IH|u IH];
    [reflexivity | exact IH | ..];
    cbn [DecimalString.NilEmpty.string_of_uint decimal_digits_value Pos.of_uint];
    match goal with
    | |- context [decimal_digit_value ?c] =>
        let v := eval vm_compute in (decimal_digit_value c) in
        change (decimal_digit_value c) with v
    end; cbv iota; apply decimal_digits_value_acc.
Qed.

(** A non-negative BigInt is printed in decimal. *)
Lemma BigInt_toString_decimal (z : Z) :
  0 <= z -> decimal_digits_value 0 (BigInt_toString z) = Some z.
Proof.
  intros Hz. destruct z as [|p|p]; [reflexivity| |lia].
  unfold BigInt_toString. cbn [Z.to_int DecimalString.NilZero.string_of_int].
  pose proof (DecimalPos.Unsigned.of_to p) as Hp.
  destruct (Pos.to_uint p) eqn:E; [discriminate Hp|..];
    unfold DecimalString.NilZero.string_of_uint;
    rewrite decimal_digits_value_uint, Hp; reflexivity.
Qed.

Lemma BigInt_toString_negative (p : positive) :
  BigInt_toString (Zneg p) = String "-" (BigInt_toString (Zpos p)).
Proof. reflexivity. Qed.

(** * The connection handler *)

(** ** Which closure variables a computation leaves alone *)

Create HintDb frame.

Lemma preserves_ret {A X} (field : session -> X) (a : A) : preserves field (ret a).
Proof. intros st. reflexivity. Qed.

Lemma preserves_throw {A X} (field : session -> X) (e : exn) :
  preserves field (@throw A e).
Proof. intros st. reflexivity. Qed.

Lemma preserves_lift {A X} (field : session -> X) (c : completion A) :
  preserves field (lift c).
Proof. destruct c; intros st; reflexivity. Qed.

Lemma preserves_get {X} (field : session -> X) : preserves field get.
Proof. intros st. reflexivity. Qed.

Lemma preserves_emit {X} (field : session -> X) (e : event) : preserves field (emit e).
Proof. intros st. reflexivity. Qed.

Lemma preserves_bind {A B X} (field : session -> X) (m : M A) (f : A -> M B) :
  preserves field m -> (forall a, preserves field (f a)) -> preserves field (bind m f).
Proof.
  intros Hm Hf st. unfold bind.
  specialize (Hm st). destruct (m st) as [[a|e] st1 evs1]; simpl in *; [|exact Hm].
  specialize (Hf a st1). destruct (f a st1) as [o st2 evs2]; simpl in *. congruence.
Qed.

Lemma preserves_destructure {X} (field : session -> X) data :
  preserves field (destructure data).
Proof. destruct data; intros st; reflexivity. Qed.

#[local] Hint Resolve preserves_ret preserves_throw preserves_lift preserves_get
  preserves_emit preserves_destructure : frame.

Ltac frame_step :=
  first
    [ apply preserves_bind; [|intros ?]
    | apply preserves_ret | apply preserves_throw | apply preserves_lift
    | apply preserves_get | apply preserves_destructure
    | apply preserves_emit
    | (intros ?; reflexivity) ].

Ltac frame :=
  repeat match goal with
         | |- preserves _ (if ?c then _ else _) => destruct c
         | |- preserves _ (match ?x with _ => _ end) => destruct x
         | |- preserves _ _ => frame_step
         end.

Lemma hex_digit_value_range (c : ascii) (d : Z) :
  hex_digit_value c = Some d -> 0 <= d < 16.
Proof.
  unfold hex_digit_value. set (n := Z.of_N (N_of_ascii c)).
  destruct (Z.leb_spec 48 n), (Z.leb_spec n 57); simpl;
    [intros [= <-]; lia|..];
    (destruct (Z.leb_spec 97 n), (Z.leb_spec n 102); simpl;
     [intros [= <-]; lia|..];
     (destruct (Z.leb_spec 65 n), (Z.leb_spec n 70); simpl;
      [intros [= <-]; lia|..]; discriminate)).
Qed.

Lemma hex_digits_value_nonneg (s : string) (acc z : Z) :
  0 <= acc -> hex_digits_value acc s = Some z -> 0 <= z.
Proof.
  revert acc. induction s as [|c s IH]; intros acc Hacc; simpl.
  - intros [= <-]. exact Hacc.
  - destruct (hex_digit_value c) as [d|] eqn:Hd; [|discriminate].
    apply hex_digit_value_range in Hd. apply IH. lia.
Qed.

Lemma BigInt_0x_nonneg (s : string) (z : Z) : BigInt_0x s = Normal z -> 0 <= z.
Proof.
  unfold BigInt_0x. destruct (trim_end s) as [|c t]; [discriminate|].
  destruct (hex_digits_value 0 (String c t)) as [v|] eqn:Hv; [|discriminate].
  intros [= <-]. eapply hex_digits_value_nonneg; [|exact Hv]. lia.
Qed.

Lemma BigInt_0x_throws_SyntaxError (s : string) (e : exn) :
  BigInt_0x s = Throw e -> e = SyntaxError.
Proof.
  unfold BigInt_0x. destruct (trim_end s) as [|c t]; [now intros [= <-]|].
  destruct (hex_digits_value 0 (String c t)); [discriminate | now intros [= <-]].
Qed.

(** Symbolic execution of a handler: [step] runs the monad as far as the
    next helper call, [dispatch] selects the branch of the [switch], and
    [explore] follows every outcome of the helper calls that remain. *)
Ltac step :=
  cbv [bind ret throw lift get modify emit
       set_I set_A set_B set_b set_s set_v set_u set_K
       console_log ws_send ws_close db_all destructure prop template app];
  cbn [_I _A _B _b _s _v _u _K].

Ltac dispatch Hserial :=
  unfold on_message; rewrite Hserial; cbv zeta;
  repeat match goal with
         | |- context [?a =? ?b] =>
             let v := eval vm_compute in (a =? b) in change (a =? b) with v
         end;
  cbv iota.

Ltac explore :=
  repeat (step;
          match goal with
          | |- context [match ?c with Normal _ => _ | Throw _ => _ end] =>
              destruct c eqn:?
          | |- context [if ?c then _ else _] => destruct c eqn:?
          end);
  step.

Section SessionProofs.

Variable sha256 : string -> list Byte.byte.
Variable k : Z.

(** SHA-256 has a fixed output length. *)
Hypothesis sha256_length : forall text, length (sha256 text) = 32%nat.

(** The value [hash] returns: the digest bytes, big-endian. *)
Local Abbreviation H args := (be_uint (sha256 (join ":" args))).

(** The same value with the hashed text written out. *)
Local Abbreviation D args :=
  (be_uint (sha256 (String.concat ":" (map join_item args)))).

Lemma hash_returns (args : list value) : hash sha256 args = Normal (H args).
Proof.
  unfold hash. apply BigInt_0x_bytes_hex.
  intros E. specialize (sha256_length (join ":" args)).
  rewrite E in sha256_length. discriminate.
Qed.

(** ** Frame lemmas: each handler writes only its own variables *)

Ltac skip_case tag Hne :=
  rewrite (proj2 (Z.eqb_neq _ tag) Hne).

Lemma on_message_keeps_I (m : message) :
  serial m <> 2 -> preserves _I (on_message sha256 m).
Proof. intros Hne. unfold on_message. cbv zeta. skip_case 2 Hne. frame. Qed.

Lemma on_message_keeps_A (m : message) :
  serial m <> 2 -> preserves _A (on_message sha256 m).
Proof. intros Hne. unfold on_message. cbv zeta. skip_case 2 Hne. frame. Qed.

Lemma on_message_keeps_u (m : message) :
  serial m <> 3 -> preserves _u (on_message sha256 m).
Proof. intros Hne. unfold on_message. cbv zeta. skip_case 3 Hne. frame. Qed.

Lemma on_message_keeps_K (m : message) :
  serial m <> 5 -> preserves _K (on_message sha256 m).
Proof. intros Hne. unfold on_message. cbv zeta. skip_case 5 Hne. frame. Qed.

Lemma on_message_keeps_s (m : message) : preserves _s (on_message sha256 m).
Proof. unfold on_message. cbv zeta. frame. Qed.

Lemma on_message_keeps_v (m : message) : preserves _v (on_message sha256 m).
Proof. unfold on_message. cbv zeta. frame. Qed.

Lemma on_message_keeps_b (m : message) : preserves _b (on_message sha256 m).
Proof. unfold on_message. cbv zeta. frame. Qed.

Lemma on_message_keeps_B (m : message) : preserves _B (on_message sha256 m).
Proof. unfold on_message. cbv zeta. frame. Qed.

Lemma lookup_callback_keeps_I tag who random error rows :
  preserves _I (lookup_callback k tag who random error rows).
Proof. unfold lookup_callback. cbv zeta. frame. Qed.

Lemma lookup_callback_keeps_A tag who random error rows :
  preserves _A (lookup_callback k tag who random error rows).
Proof. unfold lookup_callback. cbv zeta. frame. Qed.

Lemma lookup_callback_keeps_u tag who random error rows :
  preserves _u (lookup_callback k tag who random error rows).
Proof. unfold lookup_callback. cbv zeta. frame. Qed.

Lemma lookup_callback_keeps_K tag who random error rows :
  preserves _K (lookup_callback k tag who random error rows).
Proof. unfold lookup_callback. cbv zeta. frame. Qed.

#[local] Hint Resolve on_message_keeps_I on_message_keeps_A on_message_keeps_u
  on_message_keeps_K on_message_keeps_s on_message_keeps_v on_message_keeps_b
  on_message_keeps_B lookup_callback_keeps_I lookup_callback_keeps_A
  lookup_callback_keeps_u lookup_callback_keeps_K : frame.

(** Over a whole run, a variable survives every delivery that preserves it. *)
Lemma run_frame {X} (field : session -> X) (allowed : input -> bool) :
  (forall i, allowed i = false -> preserves field (deliver sha256 k i)) ->
  forall inputs st,
    forallb (fun i => negb (allowed i)) inputs = true ->
    field (fst (run sha256 k st inputs)) = field st.
Proof.
  intros Hstep inputs. induction inputs as [|i rest IH]; intros st Hall.
  - reflexivity.
  - simpl in Hall. apply andb_true_iff in Hall as [Hi Hrest].
    apply negb_true_iff in Hi.
    simpl. specialize (IH (state (deliver sha256 k i st)) Hrest).
    destruct (run sha256 k (state (deliver sha256 k i st)) rest) as [st' evs].
    simpl in *. rewrite IH. now apply Hstep.
Qed.

(** ** Running a handler on a symbolic state *)

Ltac handler :=
  cbv [bind ret throw lift get modify emit
       set_I set_A set_B set_b set_s set_v set_u set_K
       console_log ws_send ws_close db_all destructure prop template app];
  cbn [_I _A _B _b _s _v _u _K].

Lemma lxor_single_bit_differs (x i : Z) : 0 <= i -> Z.lxor x (2 ^ i) <> x.
Proof.
  intros Hi E.
  assert (Hz : 2 ^ i = 0).
  { rewrite <- (Z.lxor_0_l (2 ^ i)), <- (Z.lxor_nilpotent x).
    rewrite Z.lxor_assoc. now rewrite E, Z.lxor_nilpotent. }
  pose proof (Z.pow_pos_nonneg 2 i ltac:(lia) Hi). lia.
Qed.

(** A [C_M] that is not a hexadecimal literal makes [BigInt] throw before
    the connection is closed. *)
Lemma phase7_malformed_proof_throws (st : session) (m : message)
    (d : gmap string string) (e : exn) :
  serial m = 7 -> data m = Some d ->
  BigInt_0x (template (prop d "C_M")) = Throw e ->
  on_message sha256 m st = mkResult (Throw e) st [].
Proof.
  intros Hserial Hdata Hparse.
  unfold on_message. rewrite Hserial, Hdata. cbv zeta.
  change (7 =? 2) with false. change (7 =? 3) with false.
  change (7 =? 5) with false. change (7 =? 7) with true. cbv iota.
  cbv [bind ret throw lift get destructure].
  do 4 (rewrite hash_returns; cbv [bind ret throw lift get]).
  rewrite Hparse. reflexivity.
Qed.

(** C1 (as amended).  On a phase-7 message the handler computes
    [S_M = hash(hash(N) ^ hash(g), hash(_I), _s, _A, _B, _K)].  When [C_M]
    is a hexadecimal integer it closes the connection with status 200
    exactly when the parsed [C_M] equals [S_M], with status 401 otherwise;
    a [C_M] that differs from [S_M] in one bit is answered with 401.  When
    [C_M] is not a hexadecimal integer the handler throws a [SyntaxError]
    before it calls [ws.close]: no status is attached. *)
Theorem C1_phase7_proof_check (st : session) (m : message)
    (d : gmap string string) (C_M : string) :
  serial m = 7 -> data m = Some d -> d !! "C_M" = Some C_M ->
  let expectedProof :=
    D [VBigInt (Z.lxor (D [VBigInt N]) (D [VBigInt g])); VBigInt (D [_I st]);
       _s st; VBigInt (_A st); VBigInt (_B st); VBigInt (_K st)] in
  (forall clientProof, BigInt_0x C_M = Normal clientProof ->
     let status :=
       if expectedProof =? clientProof then statusOk else statusUnauthorized in
     on_message sha256 m st
     = mkResult (Normal tt) st
         [ConsoleLog "C_M(client M)" [VBigInt clientProof; VBigInt expectedProof];
          WsClose (Some (1000, JObject [("status", JNumber status)]))]
     /\ (clientProof = expectedProof -> status = statusOk)
     /\ (clientProof <> expectedProof -> status = statusUnauthorized)
     /\ (forall i, 0 <= i -> clientProof = Z.lxor expectedProof (2 ^ i) ->
                   status = statusUnauthorized))
  /\ (forall e, BigInt_0x C_M = Throw e ->
        on_message sha256 m st = mkResult (Throw SyntaxError) st []).
Proof.
  intros Hserial Hdata HC expectedProof. split.
  - intros clientProof Hparse status.
    assert (Hno : clientProof <> expectedProof -> status = statusUnauthorized).
    { intros Hne. unfold status.
      destruct (Z.eqb_spec expectedProof clientProof); congruence. }
    split; [|split; [|split]].
    + unfold on_message. rewrite Hserial, Hdata. cbv zeta.
      change (7 =? 2) with false. change (7 =? 3) with false.
      change (7 =? 5) with false. change (7 =? 7) with true. cbv iota.
      handler. rewrite HC.
      do 4 (rewrite hash_returns; handler).
      rewrite Hparse. handler. reflexivity.
    + intros ->. unfold status. now rewrite Z.eqb_refl.
    + exact Hno.
    + intros i Hi ->. apply Hno. now apply lxor_single_bit_differs.
  - intros e Hthrow.
    rewrite (phase7_malformed_proof_throws st m d e Hserial Hdata).
    + now rewrite (BigInt_0x_throws_SyntaxError C_M e Hthrow).
    + unfold prop. rewrite HC. exact Hthrow.
Qed.




(** C3.  On a phase-2 message whose [A] is a multiple of [N] (zero
    included), the handler logs the request, closes the connection and
    returns: nothing is sent and the store is not queried. *)
Theorem C3_phase2_zero_public_key (st : session) (m : message)
    (d : gmap string string) (A : string) (a : Z) :
  serial m = 2 -> data m = Some d ->
  d !! "A" = Some A -> BigInt_0x A = Normal a -> a mod N = 0 ->
  on_message sha256 m st
  = mkResult (Normal tt)
      {| _I := prop d "I"; _A := a; _B := _B st; _b := _b st;
         _s := _s st; _v := _v st; _u := _u st; _K := _K st |}
      [ConsoleLog "I(username)" [prop d "I"; VBigInt a]; WsClose None].
Proof.
  intros Hserial Hdata HA Hparse Hzero.
  apply (Z.rem_mod_eq_0 a N N_nonzero) in Hzero.
  unfold on_message. rewrite Hserial, Hdata. cbv zeta.
  change (2 =? 2) with true. cbv iota.
  handler. rewrite HA, Hparse. handler. rewrite Hzero. reflexivity.
Qed.

(** C4.  When the lookup reports no error and no rows (the identity is
    not in the store), the callback throws a [TypeError] on [rows[0]]:
    no error notification is sent and the connection is not closed. *)
Theorem C4_unknown_identity_throws (st : session) (random : nat -> Byte.byte) :
  on_message sha256 (login_request "nobody" "1") st
  = mkResult (Normal tt)
      {| _I := VString "nobody"; _A := 1; _B := _B st; _b := _b st;
         _s := _s st; _v := _v st; _u := _u st; _K := _K st |}
      [ConsoleLog "I(username)" [VString "nobody"; VBigInt 1];
       DbAll "select s, v from users where I = ?" [VString "nobody"]]
  /\ forall st', lookup_callback k 2 (VString "nobody") random None [] st'
                 = mkResult (Throw TypeError) st' [].
Proof.
  split; [|reflexivity].
  unfold on_message, login_request. cbn [serial data].
  change (2 =? 2) with true. cbv iota zeta. handler.
  replace (<["I":="nobody"]> (<["A":="1"]> ∅) !! "I") with (Some "nobody")
    by (vm_compute; reflexivity).
  replace (<["I":="nobody"]> (<["A":="1"]> ∅) !! "A") with (Some "1")
    by (vm_compute; reflexivity).
  handler. reflexivity.
Qed.

(** The sibling path: a store error is reported and the connection closed. *)
Lemma lookup_error_reported (st : session) tag who random err rows :
  lookup_callback k tag who random (Some err) rows st
  = mkResult (Normal tt) st
      [ConsoleLog "failed to find" [who];
       WsSend (JObject [("serial", JNumber 0x99);
                        ("data", JObject [("error", err)])]);
       WsClose None].
Proof. reflexivity. Qed.

(** C9.  A message with an unhandled tag and no [data] makes the handler
    throw a [TypeError] when it evaluates [data.error]. *)
Theorem C9_unexpected_serial_without_data_throws (st : session) :
  on_message sha256 (trigger 4) st = mkResult (Throw TypeError) st [].
Proof. reflexivity. Qed.

Lemma unexpected_serial_without_data (st : session) (tag : Z) :
  tag <> 2 -> tag <> 3 -> tag <> 5 -> tag <> 7 ->
  on_message sha256 (trigger tag) st = mkResult (Throw TypeError) st [].
Proof.
  intros H2 H3 H5 H7. unfold on_message, trigger. cbn [serial data].
  skip_case 2 H2. skip_case 3 H3. skip_case 5 H5. skip_case 7 H7. reflexivity.
Qed.

(** With a [data] object the unhandled tag is only logged. *)
Lemma unexpected_serial_with_data (st : session) (tag : Z) (d : gmap string string) :
  tag <> 2 -> tag <> 3 -> tag <> 5 -> tag <> 7 ->
  on_message sha256 {| serial := tag; data := Some d |} st
  = mkResult (Normal tt) st [ConsoleLog "unexpected error:" [prop d "error"]].
Proof.
  intros H2 H3 H5 H7. unfold on_message. cbn [serial data].
  skip_case 2 H2. skip_case 3 H3. skip_case 5 H5. skip_case 7 H7. reflexivity.
Qed.

Lemma run_snoc_state (inputs : list input) (i : input) (st : session) :
  fst (run sha256 k st (inputs ++ [i]))
  = state (deliver sha256 k i (fst (run sha256 k st inputs))).
Proof.
  revert st. induction inputs as [|j rest IH]; intros st.
  - simpl. reflexivity.
  - simpl. specialize (IH (state (deliver sha256 k j st))).
    destruct (run sha256 k (state (deliver sha256 k j st)) (rest ++ [i])).
    destruct (run sha256 k (state (deliver sha256 k j st)) rest).
    exact IH.
Qed.

(** An accepted phase-2 message stores its own [I] and [A], whatever the
    variables held. *)
Lemma phase2_accepted_state (st : session) (m : message)
    (d : gmap string string) (A : string) (a : Z) :
  serial m = 2 -> data m = Some d ->
  d !! "A" = Some A -> BigInt_0x A = Normal a ->
  _I (state (on_message sha256 m st)) = prop d "I"
  /\ _A (state (on_message sha256 m st)) = a.
Proof.
  intros Hserial Hdata HA Hparse.
  unfold on_message. rewrite Hserial, Hdata. cbv zeta.
  change (2 =? 2) with true. cbv iota.
  handler. rewrite HA, Hparse. handler.
  destruct (Z.rem a N =? 0); split; reflexivity.
Qed.

(** C6 (as amended).  Over every sequence of deliveries, each closure
    variable is changed only by the handler that owns it: [_I] and [_A]
    by phase-2 messages, [_s], [_v], [_b] and [_B] by lookup callbacks,
    [_u] by phase-3 messages and [_K] by phase-5 messages.  The variables
    are not write-once: after any sequence of deliveries, a phase-2
    message with a hexadecimal [A] sets [_I] and [_A] to its own values. *)
Theorem C6_fields_written_only_by_owner (inputs : list input) (st : session) :
  let st' := fst (run sha256 k st inputs) in
  (forallb (fun i => negb (is_inbound 2 i)) inputs = true ->
     _I st' = _I st /\ _A st' = _A st)
  /\ (forallb (fun i => negb (is_lookup i)) inputs = true ->
        _s st' = _s st /\ _v st' = _v st /\ _b st' = _b st /\ _B st' = _B st)
  /\ (forallb (fun i => negb (is_inbound 3 i)) inputs = true -> _u st' = _u st)
  /\ (forallb (fun i => negb (is_inbound 5 i)) inputs = true -> _K st' = _K st)
  /\ (forall m d A a,
        serial m = 2 -> data m = Some d ->
        d !! "A" = Some A -> BigInt_0x A = Normal a ->
        let after := fst (run sha256 k st (inputs ++ [Inbound m])) in
        _I after = prop d "I" /\ _A after = a).
Proof.
  cbv zeta.
  assert (Hframe : forall X (field : session -> X) allowed,
             (forall i, allowed i = false -> preserves field (deliver sha256 k i)) ->
             forallb (fun i => negb (allowed i)) inputs = true ->
             field (fst (run sha256 k st inputs)) = field st).
  { intros X field allowed Hstep Hall. now apply (run_frame field allowed). }
  split; [|split; [|split; [|split]]].
  5: { intros m d A a Hserial Hdata HA Hparse.
       rewrite run_snoc_state. cbn [deliver].
       now apply (phase2_accepted_state _ m d A a). }
  all: intros Hall; repeat split;
    match type of Hall with
    | forallb (fun i => negb (?allowed i)) _ = true =>
        apply (Hframe _ _ allowed); [|exact Hall]
    end;
    intros [m|tag who random error rows] Hi; simpl in Hi;
    try discriminate Hi; try apply Z.eqb_neq in Hi; simpl deliver;
    eauto with frame.
Qed.

(** C7 (as amended).  [hash] joins the parts with [":"], a string as it
    is and a BigInt in decimal (not hexadecimal), and returns the SHA-256
    digest bytes of the joined text read as a big-endian unsigned integer. *)
Theorem C7_hash_digest (args : list value) :
  hash sha256 args
  = Normal (be_uint (sha256 (String.concat ":" (map join_item args))))
  /\ (forall s, join_item (VString s) = s)
  /\ (forall z, 0 <= z -> decimal_digits_value 0 (join_item (VBigInt z)) = Some z)
  /\ (forall p, join_item (VBigInt (Zneg p))
                = String "-" (join_item (VBigInt (Zpos p)))).
Proof.
  split; [apply hash_returns|]. split; [reflexivity|]. split.
  - intros z Hz. now apply BigInt_toString_decimal.
  - intros p. apply BigInt_toString_negative.
Qed.

Lemma multiplier_is_k : hash sha256 [VBigInt N; VBigInt g] = Normal (multiplier sha256).
Proof. apply hash_returns. Qed.

End SessionProofs.

(** * The handler on concrete traffic *)

Lemma sample_digest_length (text : string) : length (sample_digest text) = 32%nat.
Proof.
  unfold sample_digest. rewrite length_firstn, length_app, repeat_length. lia.
Qed.

Lemma C1_phase7_proof_check_witness :
  (* the text hashed for the expected proof of a fresh connection *)
  sample_expected_proof
  = be_uint (sample_digest
      "1443908993996736367738715060874430983043050612321972137618801823101291149107:0::0:0:0")
  (* the expected proof is accepted *)
  /\ on_message sample_digest
       (proof_message (BigInt_toString16 sample_expected_proof)) initial_session
     = mkResult (Normal tt) initial_session
         [ConsoleLog "C_M(client M)"
            [VBigInt sample_expected_proof; VBigInt sample_expected_proof];
          WsClose (Some (1000, JObject [("status", JNumber 200)]))]
  (* the expected proof with its lowest bit flipped is rejected *)
  /\ on_message sample_digest
       (proof_message (BigInt_toString16 (Z.lxor sample_expected_proof (2 ^ 0))))
       initial_session
     = mkResult (Normal tt) initial_session
         [ConsoleLog "C_M(client M)"
            [VBigInt (Z.lxor sample_expected_proof (2 ^ 0));
             VBigInt sample_expected_proof];
          WsClose (Some (1000, JObject [("status", JNumber 401)]))]
  (* a proof that is not hexadecimal: the handler throws, nothing is closed *)
  /\ on_message sample_digest (proof_message "zz") initial_session
     = mkResult (Throw SyntaxError) initial_session [].
Proof.
  split; [vm_compute; reflexivity|]. split; [|split].
  - destruct (C1_phase7_proof_check sample_digest sample_digest_length
                initial_session
                (proof_message (BigInt_toString16 sample_expected_proof))
                (<["C_M" := BigInt_toString16 sample_expected_proof]> ∅)
                (BigInt_toString16 sample_expected_proof))
      as (Hhex & _); [reflexivity | reflexivity | vm_compute; reflexivity | ].
    destruct (Hhex sample_expected_proof) as (E & Hok & _);
      [vm_compute; reflexivity|].
    rewrite E, Hok by reflexivity. reflexivity.
  - destruct (C1_phase7_proof_check sample_digest sample_digest_length
                initial_session
                (proof_message
                   (BigInt_toString16 (Z.lxor sample_expected_proof (2 ^ 0))))
                (<["C_M" := BigInt_toString16
                              (Z.lxor sample_expected_proof (2 ^ 0))]> ∅)
                (BigInt_toString16 (Z.lxor sample_expected_proof (2 ^ 0))))
      as (Hhex & _); [reflexivity | reflexivity | vm_compute; reflexivity | ].
    destruct (Hhex (Z.lxor sample_expected_proof (2 ^ 0))) as (E & _ & _ & Hbit);
      [vm_compute; reflexivity|].
    rewrite E, (Hbit 0) by (reflexivity || lia). reflexivity.
  - destruct (C1_phase7_proof_check sample_digest sample_digest_length
                initial_session (proof_message "zz") (<["C_M" := "zz"]> ∅) "zz")
      as (_ & Hbad); [reflexivity | reflexivity | vm_compute; reflexivity | ].
    apply (Hbad SyntaxError). vm_compute. reflexivity.
Defined.

(** C1 (as stated) fails: a phase-7 message carrying the client proof
    ["zz"] is not answered with status 401; the handler throws a
    [SyntaxError] and never calls [ws.close]. *)
Lemma C1_malformed_proof_counterexample :
  on_message sample_digest (proof_message "zz") initial_session
  = mkResult (Throw SyntaxError) initial_session []
  /\ forall args,
       ~ In (WsClose args)
           (events (on_message sample_digest (proof_message "zz") initial_session)).
Proof.
  assert (E : on_message sample_digest (proof_message "zz") initial_session
              = mkResult (Throw SyntaxError) initial_session [])
    by (vm_compute; reflexivity).
  split; [exact E|]. rewrite E. intros args [].
Qed.

Lemma C3_phase2_zero_public_key_witness :
  (* [A] is zero *)
  on_message sample_digest (login_request "alice" "0") initial_session
  = mkResult (Normal tt)
      {| _I := VString "alice"; _A := 0; _B := 0; _b := 0;
         _s := VString EmptyString; _v := 0; _u := 0; _K := 0 |}
      [ConsoleLog "I(username)" [VString "alice"; VBigInt 0]; WsClose None]
  (* [A] is the modulus itself, a nonzero multiple of [N] *)
  /\ BigInt_0x (drop_colons dhparam) = Normal N
  /\ N mod N = 0
  /\ on_message sample_digest (login_request "alice" (drop_colons dhparam))
       initial_session
     = mkResult (Normal tt)
         {| _I := VString "alice"; _A := N; _B := 0; _b := 0;
            _s := VString EmptyString; _v := 0; _u := 0; _K := 0 |}
         [ConsoleLog "I(username)" [VString "alice"; VBigInt N]; WsClose None].
Proof.
  split; [|split; [exact N_from_dhparam|split; [reflexivity|]]].
  - rewrite (C3_phase2_zero_public_key sample_digest initial_session
               (login_request "alice" "0")
               (<["I" := "alice"]> (<["A" := "0"]> ∅)) "0" 0);
      [ | reflexivity | reflexivity | vm_compute; reflexivity
        | reflexivity | reflexivity ].
    replace (prop (<["I" := "alice"]> (<["A" := "0"]> ∅)) "I")
      with (VString "alice") by (vm_compute; reflexivity).
    reflexivity.
  - rewrite (C3_phase2_zero_public_key sample_digest initial_session
               (login_request "alice" (drop_colons dhparam))
               (<["I" := "alice"]> (<["A" := drop_colons dhparam]> ∅))
               (drop_colons dhparam) N);
      [ | reflexivity | reflexivity | vm_compute; reflexivity
        | exact N_from_dhparam | reflexivity ].
    replace (prop (<["I" := "alice"]> (<["A" := drop_colons dhparam]> ∅)) "I")
      with (VString "alice") by (vm_compute; reflexivity).
    reflexivity.
Defined.

Lemma C6_fields_written_only_by_owner_witness :
  let k := multiplier sample_digest in
  (* phases 2 and 3 and a lookup were processed, phase 5 was not *)
  (let st' := fst (run sample_digest k initial_session alice_until_phase4) in
   _K st' = 0)
  (* phases 3 and 5 were processed, phase 2 and the lookup were not *)
  /\ (let st' := fst (run sample_digest k initial_session
                        [Inbound (trigger 3); Inbound (trigger 5)]) in
      (_I st' = VString EmptyString /\ _A st' = 0)
      /\ (_s st' = VString EmptyString /\ _v st' = 0 /\ _b st' = 0 /\ _B st' = 0))
  (* phase 5 was processed, phase 3 was not *)
  /\ (let st' := fst (run sample_digest k initial_session
                        [Inbound (login_request "alice" "5"); Inbound (trigger 5)]) in
      _u st' = 0)
  (* phase 2 again after the phase-4 acknowledgement *)
  /\ (let after := fst (run sample_digest k initial_session
                          (alice_until_phase4
                           ++ [Inbound (login_request "mallory" "7")])) in
      _I after = VString "mallory" /\ _A after = 7).
Proof.
  intros k.
  destruct (C6_fields_written_only_by_owner sample_digest k
              alice_until_phase4 initial_session) as (_ & _ & _ & H5 & Hreplay).
  destruct (C6_fields_written_only_by_owner sample_digest k
              [Inbound (trigger 3); Inbound (trigger 5)] initial_session)
    as (H2 & Hl & _).
  destruct (C6_fields_written_only_by_owner sample_digest k
              [Inbound (login_request "alice" "5"); Inbound (trigger 5)]
              initial_session) as (_ & _ & H3 & _).
  split; [exact (H5 eq_refl)|].
  split; [split; [exact (H2 eq_refl) | exact (Hl eq_refl)]|].
  split; [exact (H3 eq_refl)|].
  destruct (Hreplay (login_request "mallory" "7")
              (<["I" := "mallory"]> (<["A" := "7"]> ∅)) "7" 7)
    as (HI & HA); [reflexivity | reflexivity | vm_compute; reflexivity
                  | reflexivity | ].
  split; [|exact HA].
  rewrite HI. vm_compute. reflexivity.
Defined.

(** C6 (as stated) fails: after the login of "alice" has reached the
    phase-4 acknowledgement, a second phase-2 message overwrites [_I] and
    [_A]. *)
Lemma C6_replayed_phase2_counterexample :
  let k := multiplier sample_digest in
  let before := run sample_digest k initial_session alice_until_phase4 in
  let after := run sample_digest k initial_session (alice_until_phase4 ++ [replayed_phase2]) in
  last (snd before) = Some (WsSend (JObject [("serial", JNumber 4)]))
  /\ _I (fst before) = VString "alice" /\ _A (fst before) = 5
  /\ _I (fst after) = VString "mallory" /\ _A (fst after) = 7.
Proof. vm_compute. repeat split. Qed.

Lemma C7_hash_digest_witness :
  hash sample_digest [VBigInt 255; VString "bob"]
  = Normal (be_uint (sample_digest "255:bob"))
  /\ decimal_digits_value 0 (join_item (VBigInt 255)) = Some 255.
Proof.
  destruct (C7_hash_digest sample_digest sample_digest_length
              [VBigInt 255; VString "bob"]) as (E & _ & Hdec & _).
  split; [exact E | apply Hdec; lia].
Defined.

(** C7 (as stated) fails: the BigInt 255 enters the hashed text as "255",
    not as "ff", and the two texts have different digests. *)
Lemma C7_hexadecimal_rendering_counterexample :
  join ":" [VBigInt 255] = "255"
  /\ String.concat ":" (map spec_render [VBigInt 255]) = "ff"
  /\ hash sample_digest [VBigInt 255]
     <> Normal (spec_digest sample_digest [VBigInt 255]).
Proof.
  split; [reflexivity|]. split; [reflexivity|].
  rewrite (hash_returns sample_digest sample_digest_length).
  vm_compute. discriminate.
Qed.

(** * Further properties of the helpers *)

(** ** Bounds on big-endian values *)

Lemma be_uint_fold_bound (bs : list Byte.byte) (acc : Z) :
  0 <= acc ->
  0 <= fold_left (fun a b => 256 * a + Z.of_N (Byte.to_N b)) bs acc
    < (acc + 1) * 256 ^ Z.of_nat (length bs).
Proof.
  revert acc. induction bs as [|b bs IH]; intros acc Hacc.
  - simpl. lia.
  - cbn [fold_left length]. rewrite Nat2Z.inj_succ, Z.pow_succ_r by lia.
    pose proof (Byte.to_N_bounded b) as Hb.
    assert (Hb' : 0 <= Z.of_N (Byte.to_N b) <= 255) by lia.
    specialize (IH (256 * acc + Z.of_N (Byte.to_N b)) ltac:(lia)).
    assert (0 < 256 ^ Z.of_nat (length bs)) by (apply Z.pow_pos_nonneg; lia).
    split; [lia|]. nia.
Qed.

Lemma be_uint_bound (bs : list Byte.byte) :
  0 <= be_uint bs < 256 ^ Z.of_nat (length bs).
Proof.
  unfold be_uint. pose proof (be_uint_fold_bound bs 0 ltac:(lia)). lia.
Qed.

(** X1.  [generateSalt(0)] throws a [SyntaxError] (it parses the bare text
    [0x]); for a length from 1 to 65536 it returns the random bytes read as
    a big-endian integer, which lies in [0, 256^length); for a length above
    65536, which [crypto.getRandomValues] refuses, it does not return. *)
Theorem X1_generateSalt_range (length : nat) (random : nat -> Byte.byte) :
  (length = 0%nat -> generateSalt length random = Throw SyntaxError)
  /\ (0 < Z.of_nat length <= 65536 ->
      generateSalt length random = Normal (be_uint (map random (seq 0 length)))
      /\ 0 <= be_uint (map random (seq 0 length)) < 256 ^ Z.of_nat length)
  /\ (65536 < Z.of_nat length ->
      forall r, generateSalt length random <> Normal r).
Proof.
  split; [|split].
  - intros ->. reflexivity.
  - intros Hlen. split.
    + unfold generateSalt.
      destruct (Z.ltb_spec 65536 (Z.of_nat length)) as [Hgt|_]; [lia|].
      apply BigInt_0x_bytes_hex.
      destruct length; [simpl in Hlen; lia | discriminate].
    + pose proof (be_uint_bound (map random (seq 0 length))) as Hb.
      now rewrite length_map, length_seq in Hb.
  - intros Hgt r. unfold generateSalt.
    destruct (Z.ltb_spec 65536 (Z.of_nat length)) as [_|Hle]; [discriminate | lia].
Qed.

Lemma X1_generateSalt_range_witness :
  generateSalt 0 sample_random = Throw SyntaxError
  /\ generateSalt 32 sample_random = Normal 0x5ac3
  /\ 0 <= 0x5ac3 < 256 ^ 32
  /\ forall r, generateSalt (Z.to_nat 65537) sample_random <> Normal r.
Proof.
  destruct (X1_generateSalt_range 0 sample_random) as (Hzero & _).
  destruct (X1_generateSalt_range 32 sample_random) as (_ & Hpos & _).
  destruct (X1_generateSalt_range (Z.to_nat 65537) sample_random) as (_ & _ & Hbig).
  destruct (Hpos ltac:(lia)) as (E & _).
  split; [apply Hzero; reflexivity|]. split; [exact E|]. split; [lia|].
  apply Hbig. rewrite Z2Nat.id; lia.
Defined.

(** ** What [BigInt(`0x...`)] accepts and returns *)

(** White space beyond ASCII is skipped as well: [1f] followed by a
    no-break space (U+00A0) and by a byte order mark (U+FEFF) reads as 31,
    while a zero width space (U+200B), which is not white space, does not. *)
Lemma BigInt_0x_unicode_white_space :
  BigInt_0x (String "1" (String "f" (String "194" (String "160" EmptyString))))
  = Normal 31
  /\ BigInt_0x (String "1" (String "f"
                  (String "239" (String "187" (String "191" EmptyString)))))
     = Normal 31
  /\ BigInt_0x (String "1" (String "f"
                  (String "226" (String "128" (String "139" EmptyString)))))
     = Throw SyntaxError.
Proof. repeat split. Qed.

Lemma trim_end_sign (rest : string) :
  trim_end (String "-" rest) = String "-" (trim_end rest).
Proof.
  cbn [trim_end]. now rewrite all_white_space_ascii.
Qed.

(** X2.  Every integer read from the wire or from the store is
    non-negative: a string that [BigInt(`0x...`)] accepts never denotes a
    negative number, and a sign, an empty string or white space alone is
    rejected with a [SyntaxError]. *)
Theorem X2_BigInt_0x_nonnegative (digits : string) (z : Z) :
  BigInt_0x digits = Normal z ->
  0 <= z
  /\ digits <> EmptyString
  /\ (forall rest, digits <> String "-" rest)
  /\ trim_end digits <> EmptyString.
Proof.
  intros Hparse. split; [now apply (BigInt_0x_nonneg digits)|].
  assert (Htrim : trim_end digits <> EmptyString).
  { intros E. unfold BigInt_0x in Hparse. now rewrite E in Hparse. }
  split; [intros ->; now apply Htrim|]. split; [|exact Htrim].
  intros rest ->. unfold BigInt_0x in Hparse.
  rewrite (trim_end_sign rest) in Hparse. discriminate Hparse.
Qed.

Lemma X2_BigInt_0x_nonnegative_witness :
  BigInt_0x "1F" = Normal 31
  /\ 0 <= 31
  /\ BigInt_0x "-1f" = Throw SyntaxError
  /\ BigInt_0x " " = Throw SyntaxError.
Proof.
  destruct (X2_BigInt_0x_nonnegative "1F" 31 eq_refl) as (Hz & _).
  repeat split; exact Hz.
Defined.

(** ** Printing a BigInt in hexadecimal and reading it back *)

Lemma hex_digits_value_acc (u : Hexadecimal.uint) (acc : positive) :
  hex_digits_value (Zpos acc) (HexadecimalString.NilEmpty.string_of_uint u)
  = Some (Zpos (Pos.of_hex_uint_acc u acc)).
Proof.
  revert acc.
  induction u as [|u IH|u IH|u IH|u IH|u IH|u IH|u IH|u IH|u IH|u IH
                  |u IH|u IH|u IH|u IH|u IH|u IH];
    intros acc; [reflexivity|..];
    cbn [HexadecimalString.NilEmpty.string_of_uint hex_digits_value Pos.of_hex_uint_acc];
    match goal with
    | |- context [hex_digit_value ?c] =>
        let v := eval vm_compute in (hex_digit_value c) in
        change (hex_digit_value c) with v
    end; cbv iota; rewrite <- IH; f_equal; lia.
Qed.

Lemma hex_digits_value_uint (u : Hexadecimal.uint) :
  hex_digits_value 0 (HexadecimalString.NilEmpty.string_of_uint u)
  = Some (Z.of_N (Pos.of_hex_uint u)).
Proof.
  induction u as [|u IH|u IH|u IH|u IH|u IH|u IH|u IH|u IH|u IH|u IH
                  |u IH|u IH|u IH|u IH|u IH|u IH];
    [reflexivity | exact IH | ..];
    cbn [HexadecimalString.NilEmpty.string_of_uint hex_digits_value Pos.of_hex_uint];
    match goal with
    | |- context [hex_digit_value ?c] =>
        let v := eval vm_compute in (hex_digit_value c) in
        change (hex_digit_value c) with v
    end; cbv iota; apply hex_digits_value_acc.
Qed.

Lemma trim_end_hex_uint (u : Hexadecimal.uint) :
  trim_end (HexadecimalString.NilEmpty.string_of_uint u)
  = HexadecimalString.NilEmpty.string_of_uint u.
Proof.
  induction u as [|u IH|u IH|u IH|u IH|u IH|u IH|u IH|u IH|u IH|u IH
                  |u IH|u IH|u IH|u IH|u IH|u IH];
    [reflexivity|..];
    cbn [HexadecimalString.NilEmpty.string_of_uint];
    (apply trim_end_fixed; [reflexivity | reflexivity | exact IH]).
Qed.

Lemma BigInt_0x_toString16 (z : Z) :
  0 <= z -> BigInt_0x (BigInt_toString16 z) = Normal z.
Proof.
  intros Hz. destruct z as [|p|p]; [reflexivity| |lia].
  unfold BigInt_toString16.
  cbn [Z.to_hex_int HexadecimalString.NilZero.string_of_int].
  pose proof (HexadecimalPos.Unsigned.of_to p) as Hp.
  unfold BigInt_0x.
  destruct (Pos.to_hex_uint p) eqn:E; [discriminate Hp|..];
    unfold HexadecimalString.NilZero.string_of_uint;
    rewrite trim_end_hex_uint;
    match goal with
    | |- match ?t with _ => _ end = _ =>
        let t' := eval cbn [HexadecimalString.NilEmpty.string_of_uint] in t in
        change t with t'
    end; cbv iota;
    match goal with
    | |- match hex_digits_value 0 ?t with _ => _ end = _ =>
        change t with (HexadecimalString.NilEmpty.string_of_uint
                         ltac:(match type of E with _ = ?d => exact d end))
    end;
    rewrite hex_digits_value_uint, Hp; reflexivity.
Qed.

(** X3.  Round trip of the wire encoding: a non-negative BigInt printed
    with [toString(16)] and read back with [BigInt(`0x...`)] is the same
    number. *)
Theorem X3_hexadecimal_round_trip (z : Z) :
  0 <= z -> BigInt_0x (BigInt_toString16 z) = Normal z.
Proof. exact (BigInt_0x_toString16 z). Qed.

Lemma X3_hexadecimal_round_trip_witness :
  BigInt_toString16 N = drop_colons (substring 3 383 dhparam)
  /\ BigInt_0x (BigInt_toString16 N) = Normal N.
Proof.
  split; [vm_compute; reflexivity|].
  apply X3_hexadecimal_round_trip. discriminate.
Defined.

(** ** Laws of [bigIntExponentiation] *)

Lemma rem_pow_pow (a e1 e2 m : Z) :
  m <> 0 -> 0 <= e1 -> 0 <= e2 ->
  Z.rem (Z.rem (a ^ e1) m ^ e2) m = Z.rem (a ^ (e1 * e2)) m.
Proof.
  intros Hm H1 H2. rewrite rem_pow by assumption. now rewrite <- Z.pow_mul_r.
Qed.

(** X4.  For a non-negative exponent and a modulus greater than 1 the
    result is smaller than the modulus in absolute value, and it is a
    residue in [0, modulus) when the base is non-negative. *)
Theorem X4_bigIntExponentiation_range (num power modulus : Z) :
  0 <= power -> 1 < modulus ->
  exists r,
    bigIntExponentiation num power modulus = Normal r
    /\ - modulus < r < modulus
    /\ (0 <= num -> 0 <= r).
Proof.
  intros Hp Hm. exists (Z.rem (num ^ power) modulus).
  split; [now apply bigIntExponentiation_rem|]. split.
  - pose proof (Z.rem_bound_abs (num ^ power) modulus ltac:(lia)). lia.
  - intros Hnum. apply Z.rem_bound_pos; [now apply Z.pow_nonneg | lia].
Qed.

Lemma X4_bigIntExponentiation_range_witness :
  exists r, bigIntExponentiation (-7) 3 5 = Normal r /\ -5 < r < 5.
Proof.
  destruct (X4_bigIntExponentiation_range (-7) 3 5) as (r & E & Hr & _); [lia..|].
  exists r. split; [exact E | exact Hr].
Defined.

(** X5.  Exponent laws: the power for a sum of exponents is the product of
    the two powers reduced by [%], and raising a power to a further
    exponent is the power for the product of the exponents. *)
Theorem X5_bigIntExponentiation_exponent_laws (num e1 e2 modulus : Z) :
  0 <= e1 -> 0 <= e2 -> 1 < modulus ->
  exists r1 r2,
    bigIntExponentiation num e1 modulus = Normal r1
    /\ bigIntExponentiation num e2 modulus = Normal r2
    /\ bigIntExponentiation num (e1 + e2) modulus = Normal (Z.rem (r1 * r2) modulus)
    /\ bigIntExponentiation r1 e2 modulus = bigIntExponentiation num (e1 * e2) modulus.
Proof.
  intros H1 H2 Hm.
  exists (Z.rem (num ^ e1) modulus), (Z.rem (num ^ e2) modulus).
  rewrite !bigIntExponentiation_rem by lia.
  split; [reflexivity|]. split; [reflexivity|]. split.
  - f_equal. rewrite Z.pow_add_r by assumption. apply Z.mul_rem. lia.
  - f_equal. apply rem_pow_pow; lia.
Qed.

Lemma X5_bigIntExponentiation_exponent_laws_witness :
  exists r1 r2,
    bigIntExponentiation 3 4 7 = Normal r1
    /\ bigIntExponentiation 3 5 7 = Normal r2
    /\ bigIntExponentiation 3 (4 + 5) 7 = Normal (Z.rem (r1 * r2) 7)
    /\ bigIntExponentiation r1 5 7 = bigIntExponentiation 3 (4 * 5) 7.
Proof. apply (X5_bigIntExponentiation_exponent_laws 3 4 5 7); lia. Defined.

Lemma premaster_closed_form (base a x u b modulus : Z) :
  1 < modulus -> 0 <= base -> 0 <= a -> 0 <= x -> 0 <= u -> 0 <= b ->
  Z.rem ((Z.rem (base ^ a) modulus
          * Z.rem (Z.rem (base ^ x) modulus ^ u) modulus) ^ b) modulus
  = (base ^ ((a + u * x) * b)) mod modulus.
Proof.
  intros Hm Hbase Ha Hx Hu Hb.
  assert (Hnz : modulus <> 0) by lia.
  rewrite rem_pow_pow by assumption.
  rewrite <- rem_pow by assumption.
  rewrite <- Z.mul_rem by assumption.
  rewrite rem_pow by assumption.
  rewrite <- Z.pow_add_r by nia.
  rewrite <- Z.pow_mul_r by nia.
  rewrite (Z.mul_comm u x).
  apply Z.rem_mod_nonneg; [|lia].
  apply Z.pow_nonneg. exact Hbase.
Qed.

(** X6.  The server's premaster secret in closed form: when the client's
    public value is [A = g^a % N] and the verifier is [v = g^x % N], the
    phase-5 computation [bigIntExponentiation(A * bigIntExponentiation(v, u, N), b, N)]
    returns [g ^ ((a + u * x) * b) mod N]. *)
Theorem X6_premaster_secret_closed_form (a x u b A v : Z) :
  0 <= a -> 0 <= x -> 0 <= u -> 0 <= b ->
  bigIntExponentiation g a N = Normal A ->
  bigIntExponentiation g x N = Normal v ->
  exists inner,
    bigIntExponentiation v u N = Normal inner
    /\ bigIntExponentiation (A * inner) b N
       = Normal ((g ^ ((a + u * x) * b)) mod N).
Proof.
  intros Ha Hx Hu Hb HA Hv.
  assert (HN : 1 < N) by reflexivity.
  rewrite bigIntExponentiation_rem in HA, Hv by assumption.
  injection HA as <-. injection Hv as <-.
  exists (Z.rem (Z.rem (g ^ x) N ^ u) N).
  rewrite !bigIntExponentiation_rem by assumption.
  split; [reflexivity|]. f_equal.
  apply premaster_closed_form; unfold g; lia.
Qed.

Lemma X6_premaster_secret_closed_form_witness :
  exists inner,
    bigIntExponentiation 32 7 N = Normal inner
    /\ bigIntExponentiation (8 * inner) 4 N
       = Normal ((g ^ ((3 + 7 * 5) * 4)) mod N).
Proof.
  apply (X6_premaster_secret_closed_form 3 5 7 4 8 32); try lia;
    vm_compute; reflexivity.
Defined.

(** * Further properties of the connection handler *)

Section SessionFacts.

Variable sha256 : string -> list Byte.byte.
Variable k : Z.

(** SHA-256 has a fixed output length. *)
Hypothesis sha256_length : forall text, length (sha256 text) = 32%nat.

Local Abbreviation H args := (be_uint (sha256 (join ":" args))).

Lemma hash_value (args : list value) : hash sha256 args = Normal (H args).
Proof. now apply hash_returns. Qed.

(** X7.  [hash] never throws and its value is a 256-bit unsigned integer. *)
Theorem X7_hash_range (args : list value) :
  exists h, hash sha256 args = Normal h /\ 0 <= h < 2 ^ 256.
Proof.
  exists (H args). split; [apply hash_value|].
  pose proof (be_uint_bound (sha256 (join ":" args))) as Hb.
  rewrite sha256_length in Hb. exact Hb.
Qed.

(** X8.  A phase-3 message, with or without a payload, stores
    [_u = hash(_A, _B)], leaves every other closure variable as it was and
    answers with [{ serial: 4 }] alone. *)
Theorem X8_phase3_scramble (st : session) (m : message) :
  serial m = 3 ->
  on_message sha256 m st
  = mkResult (Normal tt)
      {| _I := _I st; _A := _A st; _B := _B st; _b := _b st;
         _s := _s st; _v := _v st;
         _u := H [VBigInt (_A st); VBigInt (_B st)]; _K := _K st |}
      [ConsoleLog "u(random scrambling parameter)"
         [VBigInt (H [VBigInt (_A st); VBigInt (_B st)])];
       WsSend (JObject [("serial", JNumber 4)])].
Proof.
  intros Hserial. dispatch Hserial. step. rewrite hash_value. step. reflexivity.
Qed.

(** X9.  A phase-2 message whose [A] is a hexadecimal integer that is not
    a multiple of [N] stores [_I] and [_A] and starts exactly one store
    lookup for [I]; it sends nothing and does not close the connection. *)
Theorem X9_phase2_starts_lookup (st : session) (m : message)
    (d : gmap string string) (A : string) (a : Z) :
  serial m = 2 -> data m = Some d ->
  d !! "A" = Some A -> BigInt_0x A = Normal a -> a mod N <> 0 ->
  on_message sha256 m st
  = mkResult (Normal tt)
      {| _I := prop d "I"; _A := a; _B := _B st; _b := _b st;
         _s := _s st; _v := _v st; _u := _u st; _K := _K st |}
      [ConsoleLog "I(username)" [prop d "I"; VBigInt a];
       DbAll "select s, v from users where I = ?" [prop d "I"]].
Proof.
  intros Hserial Hdata HA Hparse Hnz.
  assert (Hrem : (Z.rem a N =? 0) = false).
  { apply Z.eqb_neq. intros E. apply Hnz.
    now apply (Z.rem_mod_eq_0 a N N_nonzero). }
  dispatch Hserial. rewrite Hdata. step. rewrite HA, Hparse. step.
  rewrite Hrem. reflexivity.
Qed.

(** X10.  A phase-2 message that cannot be read makes the handler throw
    before it has logged, sent or queried anything or called [ws.close]:
    without [data] it throws a [TypeError] and has changed nothing; with
    a missing [A], or an [A] that [BigInt] rejects, it throws a
    [SyntaxError] after [_I] has already been overwritten, [_A] and the
    other variables keeping their values. *)
Theorem X10_phase2_malformed (st : session) (m : message) :
  serial m = 2 ->
  (data m = None -> on_message sha256 m st = mkResult (Throw TypeError) st [])
  /\ (forall d, data m = Some d ->
        (d !! "A" = None
         \/ exists A e, d !! "A" = Some A /\ BigInt_0x A = Throw e) ->
        on_message sha256 m st
        = mkResult (Throw SyntaxError)
            {| _I := prop d "I"; _A := _A st; _B := _B st; _b := _b st;
               _s := _s st; _v := _v st; _u := _u st; _K := _K st |}
            []).
Proof.
  intros Hserial. split.
  - intros Hdata. dispatch Hserial. rewrite Hdata. reflexivity.
  - intros d Hdata [Hnone | (A & e & HA & Hthrow)];
      dispatch Hserial; rewrite Hdata; step.
    + rewrite Hnone. reflexivity.
    + rewrite HA, Hthrow. rewrite (BigInt_0x_throws_SyntaxError A e Hthrow).
      reflexivity.
Qed.

(** X11.  Only the handlers of phases 2, 3 and 5 touch the closure
    variables: a message with any other tag, the proof of phase 7 included,
    leaves the whole session state as it was, whether the handler returns
    or throws. *)
Theorem X11_other_tags_keep_state (st : session) (m : message) :
  serial m <> 2 -> serial m <> 3 -> serial m <> 5 ->
  state (on_message sha256 m st) = st.
Proof.
  intros H2 H3 H5.
  pose proof (on_message_keeps_I sha256 m H2 st) as HI.
  pose proof (on_message_keeps_A sha256 m H2 st) as HA.
  pose proof (on_message_keeps_B sha256 m st) as HB.
  pose proof (on_message_keeps_b sha256 m st) as Hb.
  pose proof (on_message_keeps_s sha256 m st) as Hs.
  pose proof (on_message_keeps_v sha256 m st) as Hv.
  pose proof (on_message_keeps_u sha256 m H3 st) as Hu.
  pose proof (on_message_keeps_K sha256 m H5 st) as HK.
  destruct (state (on_message sha256 m st)), st. cbn in *. congruence.
Qed.

End SessionFacts.

Lemma X7_hash_range_witness :
  exists h, hash sample_digest [VBigInt N; VBigInt g] = Normal h /\ 0 <= h < 2 ^ 256.
Proof. apply (X7_hash_range sample_digest sample_digest_length). Defined.

Lemma X8_phase3_scramble_witness :
  events (on_message sample_digest (trigger 3) initial_session)
  = [ConsoleLog "u(random scrambling parameter)"
       [VBigInt (be_uint (sample_digest "0:0"))];
     WsSend (JObject [("serial", JNumber 4)])].
Proof.
  rewrite (X8_phase3_scramble sample_digest sample_digest_length
             initial_session (trigger 3) eq_refl).
  reflexivity.
Defined.

Lemma X9_phase2_starts_lookup_witness :
  events (on_message sample_digest (login_request "alice" "5") initial_session)
  = [ConsoleLog "I(username)" [VString "alice"; VBigInt 5];
     DbAll "select s, v from users where I = ?" [VString "alice"]].
Proof.
  rewrite (X9_phase2_starts_lookup sample_digest initial_session
             (login_request "alice" "5")
             (<["I" := "alice"]> (<["A" := "5"]> ∅)) "5" 5);
    [ | reflexivity | reflexivity | vm_compute; reflexivity | reflexivity
      | vm_compute; discriminate ].
  vm_compute. reflexivity.
Defined.

Lemma X10_phase2_malformed_witness :
  on_message sample_digest (trigger 2) initial_session
  = mkResult (Throw TypeError) initial_session []
  /\ _I (state (on_message sample_digest (login_request "eve" "xyz") initial_session))
     = VString "eve"
  /\ outcome (on_message sample_digest (login_request "eve" "xyz") initial_session)
     = Throw SyntaxError.
Proof.
  destruct (X10_phase2_malformed sample_digest initial_session (trigger 2) eq_refl)
    as (Hnone & _).
  destruct (X10_phase2_malformed sample_digest initial_session
              (login_request "eve" "xyz") eq_refl) as (_ & Hbad).
  split; [apply Hnone; reflexivity|].
  rewrite (Hbad (<["I" := "eve"]> (<["A" := "xyz"]> ∅)) eq_refl).
  - split; [vm_compute; reflexivity | reflexivity].
  - right. exists "xyz", SyntaxError. split; vm_compute; reflexivity.
Defined.

Lemma X11_other_tags_keep_state_witness :
  state (on_message sample_digest (proof_message "ff") initial_session)
  = initial_session.
Proof.
  apply (X11_other_tags_keep_state sample_digest); discriminate.
Defined.

Section LookupFacts.

Variable sha256 : string -> list Byte.byte.
Variable k : Z.

Hypothesis sha256_length : forall text, length (sha256 text) = 32%nat.

(** [k] is what the module computes when it loads. *)
Hypothesis k_loaded : hash sha256 [VBigInt N; VBigInt g] = Normal k.

Lemma k_nonneg : 0 <= k.
Proof.
  rewrite (hash_returns sha256 sha256_length) in k_loaded.
  injection k_loaded as <-. apply be_uint_nonneg.
Qed.

Lemma generateSalt_32 (random : nat -> Byte.byte) :
  generateSalt 32 random = Normal (be_uint (map random (seq 0 32))).
Proof.
  unfold generateSalt. change (65536 <? Z.of_nat 32) with false. cbv iota.
  now apply BigInt_0x_bytes_hex.
Qed.

Lemma lookup_success (st : session) (tag : Z) (who : value)
    (random : nat -> Byte.byte) (r : row) (rest : list row) (zs zv : Z) :
  BigInt_0x (row_s r) = Normal zs -> BigInt_0x (row_v r) = Normal zv ->
  let b := be_uint (map random (seq 0 32)) mod N in
  let B := (k * zv + g ^ b mod N) mod N in
  lookup_callback k tag who random None (r :: rest) st
  = mkResult (Normal tt)
      {| _I := _I st; _A := _A st; _B := B; _b := b;
         _s := VBigInt zs; _v := zv; _u := _u st; _K := _K st |}
      [ConsoleLog "s(user salt)" [VBigInt zs; VBigInt zv];
       WsSend (JObject [("serial", JNumber (tag + 1));
                        ("data", JObject [("s", JString (row_s r));
                                          ("B", JString (BigInt_toString16 B))])]);
       ConsoleLog "b(secret ephemeral values)" [VBigInt b; VBigInt B]].
Proof.
  intros Hs Hv b B.
  pose proof N_nonzero as HN. assert (HN1 : 1 < N) by reflexivity.
  pose proof (be_uint_nonneg (map random (seq 0 32))) as Hsalt.
  pose proof (BigInt_0x_nonneg _ _ Hv) as Hzv.
  pose proof k_nonneg as Hk.
  assert (Eb : Z.rem (be_uint (map random (seq 0 32))) N = b).
  { apply Z.rem_mod_nonneg; lia. }
  assert (Hb : 0 <= b) by (apply Z.mod_pos_bound; lia).
  assert (Epow : Z.rem (g ^ b) N = g ^ b mod N).
  { apply Z.rem_mod_nonneg; [apply Z.pow_nonneg; unfold g|]; lia. }
  assert (Hpow : 0 <= g ^ b mod N) by (apply Z.mod_pos_bound; lia).
  assert (EB : Z.rem (k * zv + g ^ b mod N) N = B).
  { apply Z.rem_mod_nonneg; nia. }
  unfold lookup_callback. step. rewrite Hs. step. rewrite Hv. step.
  rewrite generateSalt_32. step. rewrite Eb.
  rewrite bigIntExponentiation_rem by lia. step.
  rewrite Epow, EB. reflexivity.
Qed.

(** X12.  When the store returns a row whose [s] and [v] are hexadecimal,
    the callback stores them, draws [b = random mod N], computes
    [B = (k * v + g^b mod N) mod N] and sends [{ serial: serial + 1,
    data: { s, B } }] with [s] as stored and [B] in hexadecimal; [b] and
    [B] lie in [0, N), the text sent for [B] reads back as [_B], and
    [_I], [_A], [_u], [_K] are untouched.  Rows after the first are
    ignored. *)
Theorem X12_lookup_success (st : session) (tag : Z) (who : value)
    (random : nat -> Byte.byte) (r : row) (rest : list row) (zs zv : Z) :
  BigInt_0x (row_s r) = Normal zs -> BigInt_0x (row_v r) = Normal zv ->
  let b := be_uint (map random (seq 0 32)) mod N in
  let B := (k * zv + g ^ b mod N) mod N in
  lookup_callback k tag who random None (r :: rest) st
  = mkResult (Normal tt)
      {| _I := _I st; _A := _A st; _B := B; _b := b;
         _s := VBigInt zs; _v := zv; _u := _u st; _K := _K st |}
      [ConsoleLog "s(user salt)" [VBigInt zs; VBigInt zv];
       WsSend (JObject [("serial", JNumber (tag + 1));
                        ("data", JObject [("s", JString (row_s r));
                                          ("B", JString (BigInt_toString16 B))])]);
       ConsoleLog "b(secret ephemeral values)" [VBigInt b; VBigInt B]]
  /\ 0 <= b < N /\ 0 <= B < N
  /\ BigInt_0x (BigInt_toString16 B) = Normal B.
Proof.
  intros Hs Hv b B. split; [now apply lookup_success|].
  assert (HN : 0 < N) by reflexivity.
  assert (HB : 0 <= B < N) by (apply Z.mod_pos_bound; exact HN).
  split; [apply Z.mod_pos_bound; exact HN|]. split; [exact HB|].
  apply BigInt_0x_toString16. lia.
Qed.

(** X13.  Without a store error the callback never closes the connection,
    whatever the rows hold, and it sends a message only when it runs to
    completion: every failure (no row, an [s] or [v] that is not
    hexadecimal) leaves the peer without any answer. *)
Theorem X13_lookup_never_closes (st : session) (tag : Z) (who : value)
    (random : nat -> Byte.byte) (rows : list row) :
  let r := lookup_callback k tag who random None rows st in
  existsb is_close (events r) = false
  /\ (outcome r <> Normal tt -> existsb is_send (events r) = false).
Proof.
  cbv zeta. unfold lookup_callback.
  destruct rows as [|r rest]; [split; [reflexivity | reflexivity]|].
  unfold bigIntExponentiation. change (N =? 0) with false. cbv iota.
  explore; cbn [events outcome existsb is_close is_send orb];
    (split; [reflexivity | intros Hne; try reflexivity; now contradiction Hne]).
Qed.

End LookupFacts.

Lemma X12_lookup_success_witness :
  let r := {| row_s := "1f"; row_v := "2a" |} in
  let B := (multiplier sample_digest * 42 + g ^ 0x5ac3 mod N) mod N in
  events (lookup_callback (multiplier sample_digest) 2 (VString "alice")
            sample_random None [r] initial_session)
  = [ConsoleLog "s(user salt)" [VBigInt 31; VBigInt 42];
     WsSend (JObject [("serial", JNumber 3);
                      ("data", JObject [("s", JString "1f");
                                        ("B", JString (BigInt_toString16 B))])]);
     ConsoleLog "b(secret ephemeral values)" [VBigInt 0x5ac3; VBigInt B]]
  /\ BigInt_0x (BigInt_toString16 B) = Normal B.
Proof.
  intros r B.
  destruct (X12_lookup_success sample_digest (multiplier sample_digest)
              sample_digest_length (multiplier_is_k sample_digest sample_digest_length)
              initial_session 2 (VString "alice") sample_random r [] 31 42
              eq_refl eq_refl) as (E & _ & _ & Hround).
  split; [rewrite E; reflexivity | exact Hround].
Defined.

Lemma X13_lookup_never_closes_witness :
  let r := lookup_callback 7 2 (VString "alice") sample_random None
             [{| row_s := "1f"; row_v := "zz" |}] initial_session in
  outcome r = Throw SyntaxError
  /\ existsb is_close (events r) = false
  /\ existsb is_send (events r) = false.
Proof.
  intros r.
  destruct (X13_lookup_never_closes 7 initial_session 2 (VString "alice")
              sample_random [{| row_s := "1f"; row_v := "zz" |}])
    as (Hclose & Hsend).
  split; [reflexivity|]. split; [exact Hclose|].
  apply Hsend. discriminate.
Defined.



(** * The registration route *)

Lemma truthy_spec (field : option json) :
  truthy field = false
  <-> field = None \/ field = Some JNull \/ field = Some (JBool false)
      \/ field = Some (JString EmptyString) \/ field = Some (JNumber 0).
Proof.
  destruct field as [[|b|z|s|items|fields]|]; simpl.
  - split; auto.
  - destruct b; split; auto; try discriminate.
    intros [E|[E|[E|[E|E]]]]; discriminate.
  - destruct (Z.eqb_spec z 0) as [->|Hz]; simpl; split; auto 6; try discriminate.
    intros [E|[E|[E|[E|E]]]]; try discriminate. injection E as ->. contradiction.
  - destruct s; split; auto 6; try discriminate.
    intros [E|[E|[E|[E|E]]]]; discriminate.
  - split; [discriminate|]. intros [E|[E|[E|[E|E]]]]; discriminate.
  - split; [discriminate|]. intros [E|[E|[E|[E|E]]]]; discriminate.
  - split; auto.
Qed.

(** X15.  [/register] answers 400 and leaves the store alone exactly when
    one of [I], [s], [v] is missing, [null], [false], the empty string or
    the number 0; in every other case it answers nothing yet and hands the
    three fields, unchanged and in this order, to a single [insert]. *)
Theorem X15_register_validation (body : gmap string json) :
  let rejected key :=
    body !! key = None \/ body !! key = Some JNull
    \/ body !! key = Some (JBool false)
    \/ body !! key = Some (JString EmptyString)
    \/ body !! key = Some (JNumber 0) in
  (rejected "I" \/ rejected "s" \/ rejected "v" ->
   register body = [ResSend 400 "Failed to get I, s and v"])
  /\ (~ (rejected "I" \/ rejected "s" \/ rejected "v") ->
      register body
      = [RouteLog "REGISTER";
         DbRun "insert into users(I, s, v) values (?, ?, ?)"
           [body !! "I"; body !! "s"; body !! "v"]]).
Proof.
  cbv zeta. unfold register. cbv zeta.
  pose proof (truthy_spec (body !! "I")) as HI.
  pose proof (truthy_spec (body !! "s")) as Hs.
  pose proof (truthy_spec (body !! "v")) as Hv.
  split.
  - intros [H|[H|H]]; [apply HI in H | apply Hs in H | apply Hv in H];
      rewrite H; simpl; rewrite ?orb_true_r; reflexivity.
  - intros Hrej.
    destruct (truthy (body !! "I")) eqn:EI;
      [|exfalso; apply Hrej; left; now apply HI].
    destruct (truthy (body !! "s")) eqn:Es;
      [|exfalso; apply Hrej; right; left; now apply Hs].
    destruct (truthy (body !! "v")) eqn:Ev;
      [|exfalso; apply Hrej; right; right; now apply Hv].
    reflexivity.
Qed.

Lemma X15_register_validation_witness :
  register (<["I" := JString "alice"]> (<["s" := JString "1f"]> ∅))
  = [ResSend 400 "Failed to get I, s and v"]
  /\ register (<["I" := JString "alice"]>
                (<["s" := JString "1f"]> (<["v" := JNull]> ∅)))
     = [ResSend 400 "Failed to get I, s and v"]
  /\ register (<["I" := JString "alice"]>
                (<["s" := JString "1f"]> (<["v" := JBool true]> ∅)))
     = [RouteLog "REGISTER";
        DbRun "insert into users(I, s, v) values (?, ?, ?)"
          [Some (JString "alice"); Some (JString "1f"); Some (JBool true)]].
Proof.
  destruct (X15_register_validation
              (<["I" := JString "alice"]> (<["s" := JString "1f"]> ∅)))
    as (Hmissing & _).
  destruct (X15_register_validation
              (<["I" := JString "alice"]>
                 (<["s" := JString "1f"]> (<["v" := JNull]> ∅))))
    as (Hnull & _).
  destruct (X15_register_validation
              (<["I" := JString "alice"]>
                 (<["s" := JString "1f"]> (<["v" := JBool true]> ∅))))
    as (_ & Haccepted).
  split; [|split].
  - apply Hmissing. right. right. left. vm_compute. reflexivity.
  - apply Hnull. right. right. right. left. vm_compute. reflexivity.
  - rewrite Haccepted.
    + rewrite lookup_insert_eq.
      rewrite lookup_insert_ne, lookup_insert_eq by discriminate.
      rewrite !lookup_insert_ne, lookup_insert_eq by discriminate.
      reflexivity.
    + rewrite lookup_insert_eq.
      rewrite lookup_insert_ne, lookup_insert_eq by discriminate.
      rewrite !lookup_insert_ne, lookup_insert_eq by discriminate.
      intros [H|[H|H]]; destruct H as [H|[H|[H|[H|H]]]]; discriminate H.
Defined.

(** X16.  [/register] does not check that [s] and [v] are hexadecimal: a
    request with non-empty strings is always handed to the store, and if
    [BigInt] rejects its [v], the callback of every later login whose
    lookup returns that record throws a [SyntaxError] without having
    called [ws.send] or [ws.close]. *)
Theorem X16_register_accepts_what_login_rejects (body : gmap string json)
    (I s v : string) (e : exn) :
  body !! "I" = Some (JString I) -> body !! "s" = Some (JString s) ->
  body !! "v" = Some (JString v) ->
  I <> EmptyString -> s <> EmptyString -> v <> EmptyString ->
  BigInt_0x v = Throw e ->
  register body
  = [RouteLog "REGISTER";
     DbRun "insert into users(I, s, v) values (?, ?, ?)"
       [Some (JString I); Some (JString s); Some (JString v)]]
  /\ forall k tag who random more st,
       let r := lookup_callback k tag who random None
                  ({| row_s := s; row_v := v |} :: more) st in
       outcome r = Throw SyntaxError
       /\ existsb is_send (events r) = false
       /\ existsb is_close (events r) = false.
Proof.
  intros HI Hs Hv HIne Hsne Hvne Hthrow. split.
  - unfold register. rewrite HI, Hs, Hv. cbv zeta.
    destruct I; [contradiction|]. destruct s; [contradiction|].
    destruct v; [contradiction|]. reflexivity.
  - intros k tag who random more st. cbv zeta.
    pose proof (BigInt_0x_throws_SyntaxError v e Hthrow) as ->.
    unfold lookup_callback. step. cbn [row_s row_v].
    destruct (BigInt_0x s) as [zs|es] eqn:Es; step.
    + rewrite Hthrow. step. repeat split.
    + rewrite (BigInt_0x_throws_SyntaxError s es Es). repeat split.
Qed.

Lemma X16_register_accepts_what_login_rejects_witness :
  let body : gmap string json :=
    <["I" := JString "bob"]> (<["s" := JString "1f"]> (<["v" := JString "secret"]> ∅)) in
  register body
  = [RouteLog "REGISTER";
     DbRun "insert into users(I, s, v) values (?, ?, ?)"
       [Some (JString "bob"); Some (JString "1f"); Some (JString "secret")]]
  /\ outcome (lookup_callback 7 2 (VString "bob") sample_random None
                [{| row_s := "1f"; row_v := "secret" |}] initial_session)
     = Throw SyntaxError.
Proof.
  intros body.
  destruct (X16_register_accepts_what_login_rejects body "bob" "1f" "secret"
              SyntaxError) as (Hreg & Hlogin);
    [vm_compute; reflexivity | vm_compute; reflexivity | vm_compute; reflexivity
    | discriminate | discriminate | discriminate | vm_compute; reflexivity | ].
  split; [exact Hreg|].
  apply (Hlogin 7 2 (VString "bob") sample_random [] initial_session).
Defined.

(** * A whole login *)

Section HandshakeFacts.

Variable sha256 : string -> list Byte.byte.
Variable k : Z.

Hypothesis sha256_length : forall text, length (sha256 text) = 32%nat.
Hypothesis k_loaded : hash sha256 [VBigInt N; VBigInt g] = Normal k.

Local Abbreviation H args := (be_uint (sha256 (join ":" args))).

Lemma run_cons (st : session) (i : input) (rest : list input) :
  run sha256 k st (i :: rest)
  = (fst (run sha256 k (state (deliver sha256 k i st)) rest),
     (events (deliver sha256 k i st)
      ++ snd (run sha256 k (state (deliver sha256 k i st)) rest))%list).
Proof.
  simpl. now destruct (run sha256 k (state (deliver sha256 k i st)) rest).
Qed.

(** X17.  A login carried out in order (phase 2 with a hexadecimal [A]
    that is not a multiple of [N], a store record with hexadecimal [s] and
    [v], phase 3, phase 5, phase 7 with a hexadecimal [C_M]) ends with
    the closure variables holding [A], [b], [B = (k v + g^b) mod N],
    [u = hash(A, B)], [K = hash((A * v^u)^b mod N)], emits the replies 3,
    4 and 6 in this order and closes the connection once, with status 200
    if [C_M] equals [hash(hash(N) ^ hash(g), hash(I), s, A, B, K)] and 401
    otherwise. *)
Theorem X17_login_in_order (I A : string) (random : nat -> Byte.byte)
    (r : row) (C_M : string) (a zs zv c : Z) :
  BigInt_0x A = Normal a -> a mod N <> 0 ->
  BigInt_0x (row_s r) = Normal zs -> BigInt_0x (row_v r) = Normal zv ->
  BigInt_0x C_M = Normal c ->
  let b := be_uint (map random (seq 0 32)) mod N in
  let B := (k * zv + g ^ b mod N) mod N in
  let u := H [VBigInt a; VBigInt B] in
  let S := (a * (zv ^ u mod N)) ^ b mod N in
  let K := H [VBigInt S] in
  let M := H [VBigInt (Z.lxor (H [VBigInt N]) (H [VBigInt g]));
              VBigInt (H [VString I]); VBigInt zs;
              VBigInt a; VBigInt B; VBigInt K] in
  run sha256 k initial_session (handshake I A random r C_M)
  = ({| _I := VString I; _A := a; _B := B; _b := b;
        _s := VBigInt zs; _v := zv; _u := u; _K := K |},
     [ConsoleLog "I(username)" [VString I; VBigInt a];
      DbAll "select s, v from users where I = ?" [VString I];
      ConsoleLog "s(user salt)" [VBigInt zs; VBigInt zv];
      WsSend (JObject [("serial", JNumber 3);
                       ("data", JObject [("s", JString (row_s r));
                                         ("B", JString (BigInt_toString16 B))])]);
      ConsoleLog "b(secret ephemeral values)" [VBigInt b; VBigInt B];
      ConsoleLog "u(random scrambling parameter)" [VBigInt u];
      WsSend (JObject [("serial", JNumber 4)]);
      ConsoleLog "S(session key)" [VBigInt S; VBigInt K];
      WsSend (JObject [("serial", JNumber 6)]);
      ConsoleLog "C_M(client M)" [VBigInt c; VBigInt M];
      WsClose (Some (1000, JObject [("status",
                 JNumber (if M =? c then statusOk else statusUnauthorized))]))]).
Proof.
  intros HA Hnz Hs Hv HC b B u S K M.
  assert (HN : 1 < N) by reflexivity.
  pose proof (BigInt_0x_nonneg _ _ HA) as Ha.
  pose proof (BigInt_0x_nonneg _ _ Hv) as Hzv.
  assert (Hb : 0 <= b) by (apply Z.mod_pos_bound; lia).
  assert (Hu : 0 <= u) by apply be_uint_nonneg.
  assert (Hrem : (Z.rem a N =? 0) = false).
  { apply Z.eqb_neq. intros E. apply Hnz.
    now apply (Z.rem_mod_eq_0 a N N_nonzero). }
  assert (Hinner : Z.rem (zv ^ u) N = zv ^ u mod N).
  { apply Z.rem_mod_nonneg; [now apply Z.pow_nonneg | lia]. }
  assert (HS : Z.rem ((a * (zv ^ u mod N)) ^ b) N = S).
  { apply Z.rem_mod_nonneg; [|lia]. apply Z.pow_nonneg.
    pose proof (Z.mod_pos_bound (zv ^ u) N ltac:(lia)). nia. }
  (* phase 2 *)
  assert (E1 : on_message sha256 (login_request I A) initial_session
               = mkResult (Normal tt)
                   {| _I := VString I; _A := a; _B := 0; _b := 0;
                      _s := VString EmptyString; _v := 0; _u := 0; _K := 0 |}
                   [ConsoleLog "I(username)" [VString I; VBigInt a];
                    DbAll "select s, v from users where I = ?" [VString I]]).
  { unfold on_message, login_request. cbn [serial data]. cbv zeta.
    change (2 =? 2) with true. cbv iota. step.
    rewrite lookup_insert_eq.
    rewrite lookup_insert_ne by discriminate. rewrite lookup_insert_eq.
    rewrite HA. step. rewrite Hrem. reflexivity. }
  (* phase 3 *)
  assert (E3 : forall st, on_message sha256 (trigger 3) st
               = mkResult (Normal tt)
                   {| _I := _I st; _A := _A st; _B := _B st; _b := _b st;
                      _s := _s st; _v := _v st;
                      _u := H [VBigInt (_A st); VBigInt (_B st)]; _K := _K st |}
                   [ConsoleLog "u(random scrambling parameter)"
                      [VBigInt (H [VBigInt (_A st); VBigInt (_B st)])];
                    WsSend (JObject [("serial", JNumber 4)])]).
  { intros st. unfold on_message, trigger. cbn [serial data]. cbv zeta.
    change (3 =? 2) with false. change (3 =? 3) with true. cbv iota.
    step. rewrite (hash_returns sha256 sha256_length). step. reflexivity. }
  (* phase 5 *)
  assert (E5 : on_message sha256 (trigger 5)
                 {| _I := VString I; _A := a; _B := B; _b := b;
                    _s := VBigInt zs; _v := zv; _u := u; _K := 0 |}
               = mkResult (Normal tt)
                   {| _I := VString I; _A := a; _B := B; _b := b;
                      _s := VBigInt zs; _v := zv; _u := u; _K := K |}
                   [ConsoleLog "S(session key)" [VBigInt S; VBigInt K];
                    WsSend (JObject [("serial", JNumber 6)])]).
  { unfold on_message, trigger. cbn [serial data]. cbv zeta.
    change (5 =? 2) with false. change (5 =? 3) with false.
    change (5 =? 5) with true. cbv iota. step.
    rewrite (bigIntExponentiation_rem zv u N Hu HN). step.
    rewrite Hinner.
    rewrite (bigIntExponentiation_rem _ b N Hb HN). step.
    rewrite HS. rewrite (hash_returns sha256 sha256_length). step. reflexivity. }
  (* phase 7 *)
  assert (E7 : on_message sha256 (proof_message C_M)
                 {| _I := VString I; _A := a; _B := B; _b := b;
                    _s := VBigInt zs; _v := zv; _u := u; _K := K |}
               = mkResult (Normal tt)
                   {| _I := VString I; _A := a; _B := B; _b := b;
                      _s := VBigInt zs; _v := zv; _u := u; _K := K |}
                   [ConsoleLog "C_M(client M)" [VBigInt c; VBigInt M];
                    WsClose (Some (1000, JObject [("status",
                      JNumber (if M =? c then statusOk else statusUnauthorized))]))]).
  { unfold on_message, proof_message. cbn [serial data]. cbv zeta.
    change (7 =? 2) with false. change (7 =? 3) with false.
    change (7 =? 5) with false. change (7 =? 7) with true. cbv iota.
    step. rewrite lookup_insert_eq.
    do 4 (rewrite (hash_returns sha256 sha256_length); step).
    rewrite HC. step. reflexivity. }
  unfold handshake.
  rewrite run_cons. cbn [deliver]. rewrite E1. cbn [state events].
  rewrite run_cons. cbn [deliver].
  rewrite (lookup_success sha256 k sha256_length k_loaded _ 2 (VString I)
             random r [] zs zv Hs Hv).
  cbn [state events _I _A _u _K].
  rewrite run_cons. cbn [deliver]. rewrite E3. cbn [state events _I _A _B _b _s _v _u _K].
  rewrite run_cons. cbn [deliver]. fold b B u. rewrite E5. cbn [state events].
  rewrite run_cons. cbn [deliver]. rewrite E7. cbn [state events].
  reflexivity.
Qed.

End HandshakeFacts.

Lemma X17_login_in_order_witness :
  exists status,
    last (snd (run sample_digest (multiplier sample_digest) initial_session
                 (handshake "alice" "5" sample_random
                    {| row_s := "1f"; row_v := "2a" |} "ff")))
    = Some (WsClose (Some (1000, JObject [("status", JNumber status)])))
    /\ (status = 200 \/ status = 401).
Proof.
  rewrite (X17_login_in_order sample_digest (multiplier sample_digest)
             sample_digest_length
             (multiplier_is_k sample_digest sample_digest_length)
             "alice" "5" sample_random {| row_s := "1f"; row_v := "2a" |} "ff"
             5 31 42 255);
    [ | reflexivity | vm_compute; discriminate | reflexivity | reflexivity
      | reflexivity ].
  eexists. split; [reflexivity|].
  match goal with |- context [if ?t then _ else _] => destruct t end;
    [left | right]; reflexivity.
Defined.

(** * Consequences of trusting the tag *)

Section TagFacts.

Variable sha256 : string -> list Byte.byte.
Variable k : Z.

Hypothesis sha256_length : forall text, length (sha256 text) = 32%nat.

Local Abbreviation H args := (be_uint (sha256 (join ":" args))).

(** X18.  The proof is checked against whatever the closure variables
    hold.  On a connection that has received nothing else they still hold
    their initial values, so the expected proof depends on public
    constants only, and a peer whose first message is a phase-7 message
    carrying that value is answered with status 200: no identity was
    named, the store was not consulted and no key was exchanged. *)
Theorem X18_proof_accepted_on_fresh_connection :
  let M := H [VBigInt (Z.lxor (H [VBigInt N]) (H [VBigInt g]));
              VBigInt (H [VString EmptyString]); VString EmptyString;
              VBigInt 0; VBigInt 0; VBigInt 0] in
  run sha256 k initial_session [Inbound (proof_message (BigInt_toString16 M))]
  = (initial_session,
     [ConsoleLog "C_M(client M)" [VBigInt M; VBigInt M];
      WsClose (Some (1000, JObject [("status", JNumber 200)]))]).
Proof.
  intros M.
  assert (HM : BigInt_0x (BigInt_toString16 M) = Normal M).
  { apply BigInt_0x_toString16. apply be_uint_nonneg. }
  cbn [run deliver]. unfold on_message, proof_message. cbn [serial data]. cbv zeta.
  change (7 =? 2) with false. change (7 =? 3) with false.
  change (7 =? 5) with false. change (7 =? 7) with true. cbv iota.
  step. rewrite lookup_insert_eq. cbn [initial_session].
  do 4 (rewrite (hash_returns sha256 sha256_length); step).
  fold M. rewrite HM. step. rewrite Z.eqb_refl. reflexivity.
Qed.

(** X19.  [hash] does not separate its arguments: a string argument that
    contains the separator hashes like the two arguments it splits into,
    and an absent argument hashes like the empty string. *)
Theorem X19_hash_arguments_not_separated (s t : string) (rest : list value) :
  hash sha256 (VString (s +:+ ":" +:+ t) :: rest)
  = hash sha256 (VString s :: VString t :: rest)
  /\ hash sha256 (VUndefined :: rest) = hash sha256 (VString EmptyString :: rest).
Proof.
  split; [|reflexivity].
  unfold hash, join. f_equal. f_equal. f_equal.
  cbn [map join_item String.concat].
  destruct (map join_item rest) as [|x xs].
  - reflexivity.
  - induction s as [|c s IH]; [reflexivity|].
    cbn [String.append]. simpl. f_equal.
    clear IH. induction s as [|c' s IH']; simpl; [reflexivity | now f_equal].
Qed.

End TagFacts.

Lemma X18_proof_accepted_on_fresh_connection_witness :
  snd (run sample_digest (multiplier sample_digest) initial_session
         [Inbound (proof_message (BigInt_toString16 sample_expected_proof))])
  = [ConsoleLog "C_M(client M)"
       [VBigInt sample_expected_proof; VBigInt sample_expected_proof];
     WsClose (Some (1000, JObject [("status", JNumber 200)]))].
Proof.
  unfold sample_expected_proof. cbn [initial_session _I _s _A _B _K].
  rewrite (X18_proof_accepted_on_fresh_connection sample_digest
             (multiplier sample_digest) sample_digest_length).
  reflexivity.
Defined.

(** * The session key *)

Section SessionKeyProofs.

Variable sha256 : string -> list Byte.byte.
Variable k : Z.

Hypothesis sha256_length : forall text, length (sha256 text) = 32%nat.

(** The value [hash] returns, with the hashed text written out. *)
Local Abbreviation D args :=
  (be_uint (sha256 (String.concat ":" (map join_item args)))).

Lemma generateSalt_nonneg (length : nat) (random : nat -> Byte.byte) (z : Z) :
  generateSalt length random = Normal z -> 0 <= z.
Proof.
  unfold generateSalt. destruct (65536 <? Z.of_nat length); [discriminate|].
  apply BigInt_0x_nonneg.
Qed.

Ltac nonneg :=
  match goal with
  | H : 0 <= ?z |- 0 <= ?z => exact H
  | H : BigInt_0x _ = Normal ?z |- 0 <= ?z => exact (BigInt_0x_nonneg _ _ H)
  | H : hash _ _ = Normal ?z |- 0 <= ?z => exact (BigInt_0x_nonneg _ _ H)
  | H : generateSalt _ _ = Normal ?z |- 0 <= Z.rem ?z N =>
      apply Z.rem_nonneg; [exact N_nonzero | exact (generateSalt_nonneg _ _ _ H)]
  end.

(** Every delivery keeps the integers read by phase 5 non-negative: they
    come from [BigInt(`0x...`)], from [hash] or from a remainder of such a
    value. *)
Lemma deliver_fields_nonneg (i : input) (st : session) :
  fields_nonneg st -> fields_nonneg (state (deliver sha256 k i st)).
Proof.
  intros (HA & Hv & Hu & Hb).
  destruct i as [m|tag who random error rows]; cbn [deliver].
  - unfold on_message. cbv zeta. destruct (data m) as [d|]; explore;
      cbn [state]; unfold fields_nonneg; cbn [_A _v _u _b];
      repeat split; nonneg.
  - unfold lookup_callback. destruct error as [err|]; [|destruct rows as [|r rest]];
      explore; cbn [state]; unfold fields_nonneg; cbn [_A _v _u _b];
      repeat split; nonneg.
Qed.

Lemma run_fields_nonneg (inputs : list input) (st : session) :
  fields_nonneg st -> fields_nonneg (fst (run sha256 k st inputs)).
Proof.
  revert st. induction inputs as [|i rest IH]; intros st Hst; [exact Hst|].
  simpl. specialize (IH (state (deliver sha256 k i st))
                        (deliver_fields_nonneg i st Hst)).
  now destruct (run sha256 k (state (deliver sha256 k i st)) rest).
Qed.

(** C5.  On a phase-5 message the handler computes the premaster secret
    [S = (_A * (_v ^ _u mod N)) ^ _b mod N], stores [_K = hash(S)], the
    digest of the decimal text of [S], and sends [{ serial: 6 }].  The
    integers it reads are non-negative in every state a connection can
    reach. *)
Theorem C5_phase5_session_key (st : session) (m : message) (inputs : list input) :
  (serial m = 5 -> fields_nonneg st ->
   let S := spec_modPow (_A st * spec_modPow (_v st) (_u st) N) (_b st) N in
   let K := D [VBigInt S] in
   on_message sha256 m st
   = mkResult (Normal tt)
       {| _I := _I st; _A := _A st; _B := _B st; _b := _b st;
          _s := _s st; _v := _v st; _u := _u st; _K := K |}
       [ConsoleLog "S(session key)" [VBigInt S; VBigInt K];
        WsSend (JObject [("serial", JNumber 6)])])
  /\ fields_nonneg (fst (run sha256 k initial_session inputs)).
Proof.
  split.
  - intros Hserial (HA & Hv & Hu & Hb) S K.
    assert (HN : 1 < N) by reflexivity.
    assert (Hinner : Z.rem (_v st ^ _u st) N = spec_modPow (_v st) (_u st) N).
    { apply Z.rem_mod_nonneg; [now apply Z.pow_nonneg | lia]. }
    assert (HS : Z.rem ((_A st * spec_modPow (_v st) (_u st) N) ^ _b st) N = S).
    { apply Z.rem_mod_nonneg; [|lia]. apply Z.pow_nonneg.
      pose proof (Z.mod_pos_bound (_v st ^ _u st) N ltac:(lia)) as Hm.
      unfold spec_modPow. nia. }
    dispatch Hserial. step.
    rewrite (bigIntExponentiation_rem (_v st) (_u st) N Hu HN). step.
    rewrite Hinner.
    rewrite (bigIntExponentiation_rem _ (_b st) N Hb HN). step.
    rewrite HS. rewrite (hash_returns sha256 sha256_length). step. reflexivity.
  - apply run_fields_nonneg. repeat split; reflexivity.
Qed.

End SessionKeyProofs.

Lemma C5_phase5_session_key_witness :
  (* S = (5 * 42^3)^2 = 370440^2 *)
  on_message sample_digest (trigger 5) keyed_session
  = mkResult (Normal tt)
      {| _I := VString "alice"; _A := 5; _B := 0; _b := 2;
         _s := VBigInt 31; _v := 42; _u := 3;
         _K := be_uint (sample_digest "137225793600") |}
      [ConsoleLog "S(session key)"
         [VBigInt 137225793600; VBigInt (be_uint (sample_digest "137225793600"))];
       WsSend (JObject [("serial", JNumber 6)])]
  /\ fields_nonneg
       (fst (run sample_digest (multiplier sample_digest) initial_session
               alice_until_phase4)).
Proof.
  destruct (C5_phase5_session_key sample_digest (multiplier sample_digest)
              sample_digest_length keyed_session (trigger 5) alice_until_phase4)
    as (Hkey & Hreach).
  split; [|exact Hreach].
  rewrite Hkey; [vm_compute; reflexivity | reflexivity |].
  unfold fields_nonneg, keyed_session. cbn [_A _v _u _b]. lia.
Defined.
